(** * StarMap: the sky-map construction of [dodo.py]

    A shallow embedding of [to_altaz], [make_sky_map], [locations] and
    [update_map], and the properties of the visible-object selection,
    the polar mapping, the marker sizes and the request handler.

    Conventions.
    - Python floats are idealised as real numbers ([R]); [np.exp] is the
      real exponential and the comparisons [<] and [>] are the real ones.
      Where rounding decides a statement, the arithmetic is redone on
      IEEE-754 binary64 numbers, which is what Python floats are: the
      module [Binary64] has the subtraction [90 - alt], the test
      [alt > 0] and the argument of [np.exp] on Rocq's primitive floats.
    - Python ints are [Z], strings are [string], dicts with string keys
      are [gmap string _], lists are [list].
    - Exceptions are values of [exn]; a computation that reads the module
      globals or calls skyfield lives in the monad [M].
    - skyfield, [datetime.fromisoformat] and float formatting are outside
      the repository: they are the fields of the class [Externals]. *)

From Stdlib Require Import Floats.
From Stdlib Require Import Reals Lra ZArith Lia.
From stdpp Require Import gmap strings list pretty.

#[local] Open Scope R_scope.
#[local] Open Scope string_scope.
#[local] Open Scope list_scope.

(** ** Real comparisons as decidable propositions *)

#[global] Instance Rlt_decision (x y : R) : Decision (x < y) := Rlt_dec x y.
#[global] Instance Rgt_decision (x y : R) : Decision (x > y) := Rgt_dec x y.

(** ** Python runtime: exceptions and built-ins *)

Inductive exn : Type :=
| KeyError (key : string)
| ValueError (msg : string)
| LibraryError (msg : string).

Inductive result (A : Type) : Type :=
| Ok (a : A)
| Raise (e : exn).
Arguments Ok {A} a.
Arguments Raise {A} e.

(** [max(a, b)]: the first argument is kept unless the second is
    strictly greater. *)
Definition py_max (a b : R) : R := if decide (b > a) then b else a.

(** [d.get(key, default)] *)
Definition dict_get {V : Type} (d : gmap string V) (key : string) (default : V) : V :=
  match d !! key with
  | Some v => v
  | None => default
  end.

(** ** skyfield values *)

(** What [to_altaz] can be asked to observe: a segment of the loaded
    kernel ([planets[naif_id]]) or a star built from a catalog row
    ([Star.from_dataframe(row)]). *)
Inductive Target (Position : Type) : Type :=
| Body (naif_id : Z)
| Star (pos : Position).
Arguments Body {Position} naif_id.
Arguments Star {Position} pos.

Record Topos : Type := mkTopos {
  latitude_degrees : R;
  longitude_degrees : R;
}.

(** [earth + Topos(...)]: a surface position on the body [center]. *)
Record Location : Type := mkLocation {
  center : Z;
  topos : Topos;
}.

(** [ts.utc(year, month, day, hour, minute)] *)
Record Time : Type := utc {
  year : Z;
  month : Z;
  day : Z;
  hour : Z;
  minute : Z;
}.

Record Angle : Type := mkAngle { degrees : R }.
Record Distance : Type := mkDistance { au : R }.

(** A row of the Hipparcos data frame; the frame is the list of
    (index, row) pairs in [iterrows()] order. *)
Record HipRow (Position : Type) : Type := mkHipRow {
  magnitude : R;
  position : Position;
}.
Arguments mkHipRow {Position} magnitude position.
Arguments magnitude {Position} h.
Arguments position {Position} h.

Definition DataFrame (Position : Type) : Type := list (Z * HipRow Position).

(** [datetime.fromisoformat(date)]: the fields the handler reads. *)
Record DateTime : Type := mkDateTime {
  dt_year : Z;
  dt_month : Z;
  dt_day : Z;
}.

(** The collaborators outside the repository. [altaz] stands for
    [location.at(t).observe(obj).apparent().altaz()] evaluated on the
    loaded kernel; it may raise. *)
Class Externals (Kernel Position : Type) : Type := {
  altaz : Kernel -> Location -> Time -> Target Position -> result (Angle * Angle * Distance);
  fromisoformat : string -> result DateTime;
  format_2f : R -> string;
}.

(** ** plotly values *)

Record Line : Type := mkLine {
  line_color : string;
  line_width : R;
}.

Record Marker : Type := mkMarker {
  marker_size : R;
  marker_color : string;
  marker_opacity : option R;
  marker_line : option Line;
}.

Record Scatterpolar : Type := mkScatterpolar {
  r : list R;
  theta : list R;
  mode : string;
  marker : Marker;
  hovertext : option string;
  hoverinfo : option string;
}.

Record RadialAxis : Type := mkRadialAxis {
  radial_visible : bool;
  radial_range : list R;
  radial_showgrid : bool;
}.

Record AngularAxis : Type := mkAngularAxis {
  direction : string;
  rotation : R;
  showline : bool;
  showticklabels : bool;
  angular_showgrid : bool;
}.

Record Polar : Type := mkPolar {
  bgcolor : string;
  radialaxis : RadialAxis;
  angularaxis : AngularAxis;
}.

Record Layout : Type := mkLayout {
  polar : option Polar;
  showlegend : option bool;
  paper_bgcolor : option string;
  plot_bgcolor : option string;
}.

Record Figure : Type := mkFigure {
  data : list Scatterpolar;
  layout : Layout;
}.

(** [go.Figure()] *)
Definition new_Figure : Figure :=
  {| data := []; layout := mkLayout None None None None |}.

(** [fig.add_trace(trace)] appends to [fig.data]. *)
Definition add_trace (fig : Figure) (trace : Scatterpolar) : Figure :=
  {| data := data fig ++ [trace]; layout := layout fig |}.

(** [fig.update_layout(polar=..., showlegend=..., paper_bgcolor=...,
    plot_bgcolor=...)] sets the four given properties. *)
Definition update_layout (fig : Figure) (p : Polar) (legend : bool)
    (paper plot : string) : Figure :=
  {| data := data fig;
     layout := {| polar := Some p; showlegend := Some legend;
                  paper_bgcolor := Some paper; plot_bgcolor := Some plot |} |}.

(** ** Module-level tables *)

Definition planet_ids : gmap string Z :=
  list_to_map
    [ ("Mercury", 199%Z);
      ("Venus", 299%Z);
      ("Mars", 499%Z);
      ("Moon", 301%Z);
      ("Sun", 10%Z) ].

(** [earth = planets[399]] *)
Definition earth : Z := 399%Z.

Definition locations : gmap string (R * R) :=
  list_to_map
    [ ("San Francisco", (37.7749, -122.4194));
      ("New York", (40.7128, -74.0060));
      ("Toronto", (43.651070, -79.347015));
      ("Mexico City", (19.4326, -99.1332));
      ("Buenos Aires", (-34.6037, -58.3816));
      ("Rio de Janeiro", (-22.9068, -43.1729));
      ("Santiago", (-33.4489, -70.6693));
      ("London", (51.5074, -0.1278));
      ("Paris", (48.8566, 2.3522));
      ("Berlin", (52.5200, 13.4050));
      ("Rome", (41.9028, 12.4964));
      ("Moscow", (55.7558, 37.6173));
      ("Cairo", (30.0444, 31.2357));
      ("Cape Town", (-33.9249, 18.4241));
      ("Nairobi", (-1.2921, 36.8219));
      ("Lagos", (6.5244, 3.3792));
      ("Istanbul", (41.0082, 28.9784));
      ("Dubai", (25.276987, 55.296249));
      ("Jerusalem", (31.7683, 35.2137));
      ("Tokyo", (35.6762, 139.6503));
      ("Beijing", (39.9042, 116.4074));
      ("New Delhi", (28.6139, 77.2090));
      ("Bangkok", (13.7563, 100.5018));
      ("Singapore", (1.3521, 103.8198));
      ("Sydney", (-33.8688, 151.2093));
      ("Auckland", (-36.8485, 174.7633));
      ("Honolulu", (21.3069, -157.8583));
      ("Reykjavik", (64.1355, -21.8954));
      ("Anchorage", (61.2181, -149.9003)) ].

(** ** The process state and the monad of computations over it *)

(** The long-lived module globals that hold data ([planets], [stars]),
    and the requests sent to skyfield so far, oldest first. *)
Record World (Kernel Position : Type) : Type := mkWorld {
  planets : Kernel;
  stars : DataFrame Position;
  observed : list (Target Position * Location * Time);
}.
Arguments mkWorld {Kernel Position} planets stars observed.
Arguments planets {Kernel Position} w.
Arguments stars {Kernel Position} w.
Arguments observed {Kernel Position} w.

(** The world after one more request to skyfield. *)
Definition asked {Kernel Position : Type} (w : World Kernel Position)
    (q : Target Position * Location * Time) : World Kernel Position :=
  {| planets := planets w; stars := stars w; observed := observed w ++ [q] |}.

Definition M (W A : Type) : Type := W -> result A * W.

Definition ret {W A : Type} (a : A) : M W A := fun w => (Ok a, w).

Definition raise {W A : Type} (e : exn) : M W A := fun w => (Raise e, w).

Definition bind {W A B : Type} (m : M W A) (k : A -> M W B) : M W B :=
  fun w =>
    match m w with
    | (Ok a, w') => k a w'
    | (Raise e, w') => (Raise e, w')
    end.

Notation "x <- m ; k" := (bind m (fun x => k))
  (at level 20, m at level 100, k at level 200, only parsing).
Notation "' p <- m ; k" := (bind m (fun x => let 'p := x in k))
  (at level 20, p pattern, m at level 100, k at level 200, only parsing).

(** [d[key]]: raises [KeyError(key)] when the key is absent. *)
Definition dict_getitem {W V : Type} (d : gmap string V) (key : string) : M W V :=
  match d !! key with
  | Some v => ret v
  | None => raise (KeyError key)
  end.

(** An exception raised by a library call propagates unchanged. *)
Definition lift {W A : Type} (x : result A) : M W A :=
  match x with
  | Ok a => ret a
  | Raise e => raise e
  end.

(** [for x in xs: body], with the local variable the body updates
    passed along. *)
Fixpoint for_each {W A S : Type} (xs : list A) (body : A -> S -> M W S) (acc : S)
    : M W S :=
  match xs with
  | [] => ret acc
  | x :: xs' => acc' <- body x acc; for_each xs' body acc'
  end.

(** ** The program *)

(** [size = max(0.5, 12 * np.exp(-0.4 * (mag - 1.0)))] *)
Definition size (mag : R) : R := py_max 0.5 (12 * exp (-0.4 * (mag - 1.0))).

Definition selected_planets : list string :=
  ["Mercury"; "Venus"; "Mars"; "Moon"; "Sun"].

Definition planet_colors : gmap string string :=
  list_to_map
    [ ("Mercury", "lightgray");
      ("Venus", "lightgray");
      ("Mars", "lightgray");
      ("Jupiter", "lightgray");
      ("Saturn", "lightgray") ].

(** The trace added for one entry [(name, alt, az)] of [planet_data]. *)
Definition planet_trace (p : string * R * R) : Scatterpolar :=
  let '(name, alt, az) := p in
  {| r := [90 - alt];
     theta := [az];
     mode := "markers+text";
     marker := {| marker_size := 15;
                  marker_color := dict_get planet_colors name "lightgray";
                  marker_opacity := None;
                  marker_line := Some {| line_color := "black"; line_width := 1 |} |};
     hovertext := None;
     hoverinfo := None |}.

(** The [update_layout] call that closes [make_sky_map]. *)
Definition sky_layout (fig : Figure) : Figure :=
  update_layout fig
    {| bgcolor := "black";
       radialaxis := {| radial_visible := false; radial_range := [0; 90];
                        radial_showgrid := false |};
       angularaxis := {| direction := "clockwise"; rotation := 180;
                         showline := false; showticklabels := false;
                         angular_showgrid := false |} |}
    false "black" "black".

Section StarMap.
Context {Kernel Position : Type} `{!Externals Kernel Position}.

#[local] Abbreviation Sky := (M (World Kernel Position)).

(** [bodies = {name: planets[naif_id] for name, naif_id in planet_ids.items()}] *)
Definition bodies : gmap string (Target Position) := Body <$> planet_ids.

(** Reading the global [stars]. *)
Definition get_stars : Sky (DataFrame Position) := fun w => (Ok (stars w), w).

(** [Star.from_dataframe(row)] *)
Definition Star_from_dataframe (row : HipRow Position) : Target Position :=
  Star (position row).

(** [location.at(t).observe(obj).apparent().altaz()]: one request to
    skyfield, answered from the loaded kernel. *)
Definition observe_apparent_altaz (obj : Target Position) (location : Location)
    (t : Time) : Sky (Angle * Angle * Distance) :=
  fun w => (altaz (planets w) location t obj, asked w (obj, location, t)).

Definition to_altaz (obj : Target Position) (location : Location) (t : Time)
    : Sky (R * R) :=
  '(alt, az, _) <- observe_apparent_altaz obj location t;
  ret (degrees alt, degrees az).

(** The first loop of [make_sky_map]: the planets above the horizon. *)
Definition collect_planets (location : Location) (t : Time)
    : Sky (list (string * R * R)) :=
  for_each selected_planets
    (fun name planet_data =>
       body <- dict_getitem bodies name;
       '(alt, az) <- to_altaz body location t;
       if decide (alt > 0)
       then ret (planet_data ++ [(name, alt, az)])
       else ret planet_data)
    [].

(** [bright_stars = stars[stars['magnitude'] < 6]] *)
Definition bright_stars (stars : DataFrame Position) : DataFrame Position :=
  filter (fun e => magnitude e.2 < 6) stars.

(** The second loop: the bright stars above the horizon. *)
Definition collect_stars (location : Location) (t : Time)
    : Sky (list (R * R * R * Z)) :=
  stars <- get_stars;
  for_each (bright_stars stars)
    (fun '(hip, row) star_data =>
       let star := Star_from_dataframe row in
       '(alt, az) <- to_altaz star location t;
       if decide (alt > 0)
       then ret (star_data ++ [(magnitude row, alt, az, hip)])
       else ret star_data)
    [].

(** The trace added for one entry [(mag, alt, az, hip)] of [star_data]. *)
Definition star_trace (s : R * R * R * Z) : Scatterpolar :=
  let '(mag, alt, az, hip) := s in
  {| r := [90 - alt];
     theta := [az];
     mode := "markers";
     marker := {| marker_size := size mag; marker_color := "white";
                  marker_opacity := Some 0.8; marker_line := None |};
     hovertext := Some ("HIP " +:+ pretty hip +:+ " (mag " +:+ format_2f mag +:+ ")");
     hoverinfo := Some "text" |}.

(** The chart part of [make_sky_map]: stars, then planets, then layout. *)
Definition draw (planet_data : list (string * R * R))
    (star_data : list (R * R * R * Z)) : Figure :=
  let fig := new_Figure in
  let fig := fold_left (fun fig s => add_trace fig (star_trace s)) star_data fig in
  let fig := fold_left (fun fig p => add_trace fig (planet_trace p)) planet_data fig in
  sky_layout fig.

Definition make_sky_map (lat lon : R) (year month day hour : Z) : Sky Figure :=
  let location := mkLocation earth (mkTopos lat lon) in
  let t := utc year month day hour 0 in
  planet_data <- collect_planets location t;
  star_data <- collect_stars location t;
  ret (draw planet_data star_data).

Definition update_map (city date : string) (hour : Z) : Sky Figure :=
  '(lat, lon) <- dict_getitem locations city;
  dt <- lift (fromisoformat date);
  fig <- make_sky_map lat lon (dt_year dt) (dt_month dt) (dt_day dt) hour;
  ret fig.

End StarMap.

(** ** The floating-point arithmetic of the chart

    Python floats are IEEE-754 binary64 numbers. The expressions of
    [make_sky_map] whose rounding decides a statement are repeated here
    on Rocq's primitive floats, operation for operation. *)

Module Binary64.

(** [alt > 0], the test of both loops (lines 54 and 64). *)
Definition visible (alt : float) : bool := (0 <? alt)%float.

(** [90 - alt], the radius of both kinds of trace (lines 76 and 94). *)
Definition radius (alt : float) : float := (90 - alt)%float.

(** [stars['magnitude'] < 6], the filter of line 59, on one magnitude. *)
Definition bright (mag : float) : bool := (mag <? 6)%float.

(** [-0.4 * (mag - 1.0)], the argument of [np.exp] in line 74. The
    literal 0.4 denotes the double 0x1.999999999999ap-2. *)
Definition exponent (mag : float) : float :=
  ((-0x1.999999999999ap-2) * (mag - 1))%float.

(** [max(a, b)] *)
Definition py_max (a b : float) : float := if (a <? b)%float then b else a.

(** [max(0.5, 12 * np.exp(-0.4 * (mag - 1.0)))], whatever function of
    doubles [np_exp] numpy's exponential is. *)
Definition size (np_exp : float -> float) (mag : float) : float :=
  py_max 0.5 (12 * np_exp (exponent mag))%float.

(** The double 90.0: mantissa and exponent of its specification. *)
Definition ninety_mantissa : positive := 6333186975989760.

Definition ninety : spec_float := S754_finite false ninety_mantissa (-46).

(** What [n] one-bit right shifts make of the mantissa [m]: the
    quotient by 2^n, with no round or sticky bit when the shift is
    exact. *)
Definition shr_inv (m n : Z) (mrs : shr_record) : Prop :=
  (shr_m mrs = m / 2 ^ n)%Z /\
  ((m mod 2 ^ n)%Z = 0%Z -> shr_r mrs = false /\ shr_s mrs = false).

End Binary64.

(** ** Vocabulary of the statements *)

Section Vocabulary.
Context {Kernel Position : Type} `{!Externals Kernel Position}.

(** The value [to_altaz] returns, as a function of the kernel. *)
Definition sight (k : Kernel) (location : Location) (t : Time)
    (obj : Target Position) : result (R * R) :=
  match altaz k location t obj with
  | Ok (alt, az, _) => Ok (degrees alt, degrees az)
  | Raise e => Raise e
  end.

(** The entry one iteration of a collecting loop appends for [x], if any. *)
Definition above_horizon {A E : Type} (k : Kernel) (location : Location) (t : Time)
    (target : A -> Target Position) (entry : A -> R -> R -> E) (x : A) : option E :=
  match sight k location t (target x) with
  | Ok (alt, az) => if decide (alt > 0) then Some (entry x alt az) else None
  | Raise _ => None
  end.

(** One iteration of either loop: ask skyfield, then append the entry
    when the altitude is positive. *)
Definition iteration {A E : Type} (loc : Location) (t : Time)
    (target : A -> Target Position) (entry : A -> R -> R -> E)
    (x : A) (acc : list E) (w : World Kernel Position)
    : result (list E) * World Kernel Position :=
  (match sight (planets w) loc t (target x) with
   | Ok (alt, az) => Ok (if decide (alt > 0) then acc ++ [entry x alt az] else acc)
   | Raise e => Raise e
   end,
   asked w (target x, loc, t)).

(** The kernel segment held by [bodies] under [name]. *)
Definition body_of (name : string) : Target Position :=
  Body (default 0%Z (planet_ids !! name)).

(** The tuples the two loops append. *)
Definition planet_entry (name : string) (alt az : R) : string * R * R :=
  (name, alt, az).

Definition star_entry (e : Z * HipRow Position) (alt az : R) : R * R * R * Z :=
  (magnitude e.2, alt, az, e.1).

(** Two worlds with the same kernel and the same catalog. *)
Definition same_globals (w w' : World Kernel Position) : Prop :=
  planets w = planets w' /\ stars w = stars w'.

(** The request [to_altaz] sends for a catalog entry. *)
Definition star_request (location : Location) (t : Time) (e : Z * HipRow Position)
    : Target Position * Location * Time :=
  (Star_from_dataframe e.2, location, t).

End Vocabulary.

(** ** The two dropdowns of [app.layout] *)

(** [locations.keys()]: the keys of the table, in insertion order. *)
Definition locations_keys : list string :=
  [ "San Francisco"; "New York"; "Toronto"; "Mexico City";
    "Buenos Aires"; "Rio de Janeiro"; "Santiago";
    "London"; "Paris"; "Berlin"; "Rome"; "Moscow";
    "Cairo"; "Cape Town"; "Nairobi"; "Lagos";
    "Istanbul"; "Dubai"; "Jerusalem";
    "Tokyo"; "Beijing"; "New Delhi"; "Bangkok"; "Singapore";
    "Sydney"; "Auckland";
    "Honolulu"; "Reykjavik"; "Anchorage" ].

(** One entry [{"label": ..., "value": ...}] of a dropdown. *)
Record DropdownOption (V : Type) : Type := mkOption {
  option_label : string;
  option_value : V;
}.
Arguments mkOption {V} option_label option_value.
Arguments option_label {V} d.
Arguments option_value {V} d.

(** [dcc.Dropdown(id=..., options=..., value=..., style=...)] *)
Record Dropdown (V : Type) : Type := mkDropdown {
  dropdown_id : string;
  dropdown_options : list (DropdownOption V);
  dropdown_value : V;
  dropdown_style : list (string * string);
}.
Arguments mkDropdown {V} dropdown_id dropdown_options dropdown_value dropdown_style.
Arguments dropdown_id {V} d.
Arguments dropdown_options {V} d.
Arguments dropdown_value {V} d.
Arguments dropdown_style {V} d.

(** [f"{h:02d}"]: decimal, zero-filled to width 2 (a sign counts for
    the width). *)
Definition format_02d (h : Z) : string :=
  if decide (0 <= h < 10)%Z then "0" +:+ pretty h else pretty h.

Definition city_dropdown : Dropdown string :=
  {| dropdown_id := "city";
     dropdown_options := (fun city => mkOption city city) <$> locations_keys;
     dropdown_value := "San Francisco";
     dropdown_style := [("width", "300px"); ("color", "black")] |}.

Definition hour_dropdown : Dropdown Z :=
  {| dropdown_id := "hour";
     dropdown_options :=
       (fun h => mkOption (format_02d h +:+ ":00") h) <$> seqZ 0 24;
     dropdown_value := 22%Z;
     dropdown_style := [("width", "120px"); ("color", "black")] |}.

(** ** Vocabulary of the statements about whole runs *)

Section Runs.
Context {Kernel Position : Type} `{!Externals Kernel Position}.

(** The requests a run of [make_sky_map] has to send, in order: the
    five selected bodies, then the bright stars of the catalog. *)
Definition planned_requests (location : Location) (t : Time)
    (stars : DataFrame Position) : list (Target Position * Location * Time) :=
  ((fun name => (body_of name, location, t)) <$> selected_planets)
  ++ (star_request location t <$> bright_stars stars).

(** skyfield answers the request [q] on the kernel [k]. *)
Definition answered (k : Kernel) (q : Target Position * Location * Time) : Prop :=
  exists a, altaz k q.1.2 q.2 q.1.1 = Ok a.

(** skyfield raises [e] on the request [q]. *)
Definition refused (k : Kernel) (q : Target Position * Location * Time) (e : exn) : Prop :=
  altaz k q.1.2 q.2 q.1.1 = Raise e.

End Runs.

(** ** A small concrete sky *)

Module Demo.

(** The Moon and the star at position 1 are up; everything else is
    below the horizon. *)
Definition demo_altaz (k : unit) (location : Location) (t : Time) (obj : Target Z)
    : result (Angle * Angle * Distance) :=
  match obj with
  | Body naif_id =>
      if (naif_id =? 301)%Z
      then Ok (mkAngle 35, mkAngle 120, mkDistance 1)
      else Ok (mkAngle (-12), mkAngle 300, mkDistance 1)
  | Star pos =>
      if (pos =? 1)%Z
      then Ok (mkAngle 50, mkAngle 10, mkDistance 1)
      else Ok (mkAngle (-20), mkAngle 200, mkDistance 1)
  end.

(** Nothing is up. *)
Definition dark_altaz (k : unit) (location : Location) (t : Time) (obj : Target Z)
    : result (Angle * Angle * Distance) :=
  Ok (mkAngle (-10), mkAngle 180, mkDistance 1).


Definition demo_fromisoformat (date : string) : result DateTime :=
  if String.eqb date "2024-06-21"
  then Ok (mkDateTime 2024 6 21)
  else Raise (ValueError "Invalid isoformat string").

Definition demo_externals : Externals unit Z :=
  {| altaz := demo_altaz; fromisoformat := demo_fromisoformat;
     format_2f := fun _ => "0.00" |}.

Definition dark_externals : Externals unit Z :=
  {| altaz := dark_altaz; fromisoformat := demo_fromisoformat;
     format_2f := fun _ => "0.00" |}.


Definition demo_stars : DataFrame Z :=
  [ (11%Z, mkHipRow 1.5 1%Z); (12%Z, mkHipRow 7 2%Z); (13%Z, mkHipRow 2.5 3%Z) ].

Definition demo_world : World unit Z := mkWorld tt demo_stars [].

Definition san_francisco : Location :=
  mkLocation earth (mkTopos 37.7749 (-122.4194)).

Definition solstice : Time := utc 2024 6 21 22 0.

(** The requests one run of [make_sky_map] sends, in order. *)
Definition planet_requests : list (Target Z * Location * Time) :=
  (fun naif_id => (Body naif_id, san_francisco, solstice))
    <$> [199; 299; 499; 301; 10]%Z.

Definition star_requests : list (Target Z * Location * Time) :=
  [ (Star 1%Z, san_francisco, solstice); (Star 3%Z, san_francisco, solstice) ].

Definition after_planets : World unit Z := mkWorld tt demo_stars planet_requests.

(** The two visible lists of the run. *)
Definition demo_planet_data : list (string * R * R) := [("Moon", 35, 120)].

Definition demo_star_data : list (R * R * R * Z) := [(1.5, 50, 10, 11%Z)].


Definition after_stars : World unit Z :=
  mkWorld tt demo_stars (planet_requests ++ star_requests).

End Demo.

(** * Properties *)

(** ** Real arithmetic of the marker size *)

Lemma py_max_Rmax (a b : R) : py_max a b = Rmax a b.
Proof.
  unfold py_max, Rmax. case_decide; destruct (Rle_dec a b); lra.
Qed.

Lemma py_max_ge_l (a b : R) : a <= py_max a b.
Proof. unfold py_max. case_decide; lra. Qed.

Lemma py_max_floor (a b : R) : b <= a -> py_max a b = a.
Proof. unfold py_max. intros. case_decide; lra. Qed.

Lemma py_max_above (a b : R) : a < b -> py_max a b = b.
Proof. unfold py_max. intros. case_decide; lra. Qed.

Lemma exp_opp_mult (x : R) : exp (- x) * exp x = 1.
Proof. rewrite <- exp_plus. replace (- x + x) with 0 by lra. apply exp_0. Qed.

Lemma exp_le (x y : R) : x <= y -> exp x <= exp y.
Proof.
  intros [Hlt | ->]; [left; by apply exp_increasing | lra].
Qed.

Lemma exp_1_9_lower : 2.9 < exp 1.9.
Proof. pose proof (exp_ineq1 1.9 ltac:(lra)). lra. Qed.

Lemma exp_7_6_lower : 24 < exp 7.6.
Proof.
  replace 7.6 with (1.9 + 1.9 + (1.9 + 1.9)) by lra.
  rewrite (exp_plus (1.9 + 1.9)), exp_plus. pose proof exp_1_9_lower.
  assert (8.41 < exp 1.9 * exp 1.9) by nra. nra.
Qed.

Lemma exp_2_upper : exp 2 <= 9.
Proof.
  replace 2 with (1 + 1) by lra. rewrite exp_plus.
  pose proof exp_le_3. pose proof (exp_pos 1). nra.
Qed.

(** The exponential term of [size] falls as the magnitude grows. *)
Lemma star_term_decreasing (m1 m2 : R) :
  m1 < m2 -> 12 * exp (-0.4 * (m2 - 1.0)) < 12 * exp (-0.4 * (m1 - 1.0)).
Proof.
  intros H. apply Rmult_lt_compat_l; [lra |]. apply exp_increasing. lra.
Qed.

Lemma star_term_faint (m : R) : 20 <= m -> 12 * exp (-0.4 * (m - 1.0)) <= 0.5.
Proof.
  intros H.
  assert (exp (-0.4 * (m - 1.0)) <= exp (Ropp 7.6)) by (apply exp_le; lra).
  pose proof (exp_opp_mult 7.6). pose proof exp_7_6_lower.
  pose proof (exp_pos (Ropp 7.6)). nra.
Qed.

Lemma size_faint (m : R) : 20 <= m -> size m = 0.5.
Proof. intros. unfold size. apply py_max_floor. by apply star_term_faint. Qed.

Lemma size_at_1 : size 1.0 = 12.
Proof.
  unfold size. replace (-0.4 * (1.0 - 1.0)) with 0 by lra.
  rewrite exp_0. rewrite py_max_above; lra.
Qed.

Lemma size_floor (m : R) : 0.5 <= size m.
Proof. apply py_max_ge_l. Qed.

Lemma size_antitone (m1 m2 : R) : m1 < m2 -> size m2 <= size m1.
Proof.
  intros H. pose proof (star_term_decreasing m1 m2 H). unfold size, py_max.
  repeat case_decide; lra.
Qed.

(** ** Binary64 arithmetic of the radius *)

Section Binary64Arithmetic.
#[local] Open Scope Z_scope.

#[local] Abbreviation m90 := Binary64.ninety_mantissa.
#[local] Abbreviation s90 := Binary64.ninety.

(** The number of binary digits of a mantissa. *)
Lemma digits2_pos_size (p : positive) : digits2_pos p = Pos.size p.
Proof. induction p; simpl; congruence. Qed.

Lemma digits2_bounds (p : positive) :
  2 ^ (Zpos (digits2_pos p) - 1) <= Zpos p < 2 ^ Zpos (digits2_pos p).
Proof.
  rewrite digits2_pos_size.
  pose proof (Pos.size_gt p) as Hgt. pose proof (Pos.size_le p) as Hle.
  apply Pos2Z.pos_lt_pos in Hgt. apply Pos2Z.pos_le_pos in Hle.
  rewrite Pos2Z.inj_pow in Hgt, Hle. change (Z.pos p~0) with (2 * Z.pos p) in Hle.
  assert (Hs : 2 ^ Zpos (Pos.size p) = 2 * 2 ^ (Zpos (Pos.size p) - 1)).
  { rewrite <- Z.pow_succ_r by lia. f_equal. lia. }
  lia.
Qed.

Lemma digits2_unique (p : positive) (d : Z) :
  2 ^ (d - 1) <= Zpos p < 2 ^ d -> Zpos (digits2_pos p) = d.
Proof.
  intros [Hlo Hhi]. pose proof (digits2_bounds p) as [Hlo' Hhi'].
  set (s := Zpos (digits2_pos p)) in *.
  assert (0 < d).
  { destruct (Z.lt_ge_cases 0 d) as [|Hd]; [done|].
    assert (2 ^ d <= 1).
    { destruct (Z.eq_dec d 0) as [->|]; [simpl; lia|].
      rewrite Z.pow_neg_r by lia. lia. }
    lia. }
  destruct (Z.lt_trichotomy s d) as [Hlt | [Heq | Hgt]]; [| exact Heq |].
  - assert (2 ^ s <= 2 ^ (d - 1)) by (apply Z.pow_le_mono_r; lia). lia.
  - assert (2 ^ d <= 2 ^ (s - 1)) by (apply Z.pow_le_mono_r; lia). lia.
Qed.

(** Aligning a mantissa to a smaller exponent multiplies it by a power
    of two. *)
Lemma iter_xO (m d : positive) : Zpos (Pos.iter xO m d) = Zpos m * 2 ^ Zpos d.
Proof.
  induction d as [| d IH] using Pos.peano_ind.
  - simpl. lia.
  - rewrite Pos.iter_succ, Pos2Z.inj_xO, IH, Pos2Z.inj_succ, Z.pow_succ_r by lia. lia.
Qed.

(** A property kept by each step is kept by [SpecFloat.iter_pos]. *)
Lemma iter_pos_invariant {A : Type} (f : A -> A) (P : Z -> A -> Prop) :
  (forall n x, 0 <= n -> P n x -> P (n + 1) (f x)) ->
  forall p n x, 0 <= n -> P n x -> P (n + Zpos p) (SpecFloat.iter_pos f p x).
Proof.
  intros Hstep. induction p as [p IH | p IH |]; intros n x Hn Hx; simpl.
  - replace (n + Zpos p~1) with (n + 1 + Zpos p + Zpos p) by lia.
    apply IH; [lia |]. apply IH; [lia |]. by apply Hstep.
  - replace (n + Zpos p~0) with (n + Zpos p + Zpos p) by lia.
    apply IH; [lia |]. by apply IH.
  - by apply Hstep.
Qed.

Lemma shr_1_inv (M n : Z) (mrs : shr_record) :
  0 <= M -> 0 <= n -> Binary64.shr_inv M n mrs -> Binary64.shr_inv M (n + 1) (shr_1 mrs).
Proof.
  intros HM Hn [Hm Hex]. destruct mrs as [m r s]. simpl in Hm, Hex.
  assert (HP : 0 < 2 ^ n) by (apply Z.pow_pos_nonneg; lia).
  assert (Hpow : 2 ^ (n + 1) = 2 ^ n * 2) by (rewrite Z.pow_add_r by lia; lia).
  assert (Hdiv : M / 2 ^ (n + 1) = m / 2).
  { rewrite Hpow, <- Z.div_div by lia. by rewrite Hm. }
  assert (Hm0 : 0 <= m) by (rewrite Hm; apply Z.div_pos; lia).
  assert (Hexact : M mod 2 ^ (n + 1) = 0 ->
                   r = false /\ s = false /\ m mod 2 = 0).
  { intros H0. rewrite Hpow in H0.
    assert (HMk : M = 2 ^ n * (2 * (M / (2 ^ n * 2)))).
    { pose proof (Z.div_mod M (2 ^ n * 2) ltac:(lia)). lia. }
    assert (M mod 2 ^ n = 0).
    { rewrite HMk, Z.mul_comm. apply Z.mod_mul. lia. }
    destruct (Hex H) as [-> ->]. split; [done |]. split; [done |].
    rewrite Hm. rewrite HMk at 1. rewrite Z.mul_comm, Z.div_mul by lia.
    rewrite Z.mul_comm. apply Z.mod_mul. lia. }
  unfold Binary64.shr_inv. rewrite Hdiv. clear Hdiv Hm Hex Hpow.
  destruct m as [| [p | p |] | p]; simpl; try lia.
  - split; [done |]. intros H. destruct (Hexact H) as (-> & -> & _). done.
  - split; [Z.to_euclidean_division_equations; lia |].
    intros H. destruct (Hexact H) as (_ & _ & Hodd).
    rewrite Pos2Z.inj_xI in Hodd. Z.to_euclidean_division_equations. lia.
  - split; [Z.to_euclidean_division_equations; lia |].
    intros H. destruct (Hexact H) as (-> & -> & _). done.
  - split; [done |].
    intros H. destruct (Hexact H) as (_ & _ & Hodd). done.
Qed.

Lemma shr_iter_inv (M : Z) (p : positive) :
  0 <= M ->
  Binary64.shr_inv M (Zpos p) (SpecFloat.iter_pos shr_1 p (Build_shr_record M false false)).
Proof.
  intros HM.
  apply (iter_pos_invariant shr_1 (Binary64.shr_inv M)
           (fun n x Hn Hx => shr_1_inv M n x HM Hn Hx) p 0); [lia |].
  split; simpl; [by rewrite Z.div_1_r | done].
Qed.

(** Rounding to nearest even moves the shifted mantissa up by at most
    one, and not at all when nothing was shifted out. *)
Lemma round_nearest_even_bounds (mrs : shr_record) :
  0 <= shr_m mrs ->
  shr_m mrs <= round_nearest_even (shr_m mrs) (loc_of_shr_record mrs) <= shr_m mrs + 1 /\
  (shr_r mrs = false -> shr_s mrs = false ->
   round_nearest_even (shr_m mrs) (loc_of_shr_record mrs) = shr_m mrs).
Proof.
  destruct mrs as [m [|] [|]]; simpl; intros Hm; (split; [| done]);
    try destruct (Z.even m); lia.
Qed.

Lemma fexp_eq (x : Z) : fexp prec emax x = Z.max (x - 53) (-1074).
Proof. reflexivity. Qed.

Lemma shr_fexp_zero (m : positive) (e : Z) :
  fexp prec emax (Zpos (digits2_pos m) + e) = e ->
  shr_fexp prec emax (Zpos m) e loc_Exact = (Build_shr_record (Zpos m) false false, e).
Proof.
  intros H. unfold shr_fexp. simpl Zdigits2. rewrite H, Z.sub_diag. reflexivity.
Qed.

(** A mantissa already in canonical form is returned as it is. *)
Lemma binary_round_aux_exact (mz : positive) (ez : Z) :
  fexp prec emax (Zpos (digits2_pos mz) + ez) = ez ->
  ez <= 971 ->
  binary_round_aux prec emax false (Zpos mz) ez loc_Exact = S754_finite false mz ez.
Proof.
  intros Hcan Hez. unfold binary_round_aux.
  rewrite (shr_fexp_zero mz ez Hcan). cbn [shr_m loc_of_shr_record round_nearest_even].
  rewrite (shr_fexp_zero mz ez Hcan). cbn [shr_m].
  replace (ez <=? emax - prec) with true; [done |].
  symmetry. apply Z.leb_le. unfold emax, prec. lia.
Qed.

(** A mantissa of more than 53 digits is shifted down to 53 and rounded,
    which moves it up by at most one; when that reaches 2^53 the
    exponent goes up by one more and the mantissa is 2^52. *)
Lemma binary_round_aux_round (M : positive) (e : Z) :
  53 < Zpos (digits2_pos M) ->
  -1074 <= e ->
  e + (Zpos (digits2_pos M) - 53) + 1 <= 971 ->
  exists m1 e1,
    binary_round_aux prec emax false (Zpos M) e loc_Exact = S754_finite false m1 e1 /\
    ((e1 = e + (Zpos (digits2_pos M) - 53) /\
      Zpos M / 2 ^ (Zpos (digits2_pos M) - 53) <= Zpos m1
        <= Zpos M / 2 ^ (Zpos (digits2_pos M) - 53) + 1 /\
      (Zpos M mod 2 ^ (Zpos (digits2_pos M) - 53) = 0 ->
       Zpos m1 = Zpos M / 2 ^ (Zpos (digits2_pos M) - 53)) /\
      Zpos m1 < 2 ^ 53) \/
     (e1 = e + (Zpos (digits2_pos M) - 53) + 1 /\ Zpos m1 = 2 ^ 52 /\
      2 ^ 53 <= Zpos M / 2 ^ (Zpos (digits2_pos M) - 53) + 1)).
Proof.
  intros Hd He Hmax. pose proof (digits2_bounds M) as [Hlo Hhi].
  set (d := Zpos (digits2_pos M)) in *.
  destruct (d - 53) as [| pj |] eqn:Hj; [lia | | lia].
  assert (Hdj : d = 53 + Zpos pj) by lia.
  assert (H2j : 0 < 2 ^ Zpos pj) by (apply Z.pow_pos_nonneg; lia).
  assert (Hq : 2 ^ 52 <= Zpos M / 2 ^ Zpos pj < 2 ^ 53).
  { split.
    - apply Z.div_le_lower_bound; [lia |].
      replace (d - 1) with (Zpos pj + 52) in Hlo by lia.
      rewrite Z.pow_add_r in Hlo by lia. lia.
    - apply Z.div_lt_upper_bound; [lia |].
      rewrite Hdj, Z.add_comm, Z.pow_add_r in Hhi by lia. lia. }
  destruct (shr_iter_inv (Zpos M) pj ltac:(lia)) as [Hm Hex].
  set (mrs := SpecFloat.iter_pos shr_1 pj (Build_shr_record (Zpos M) false false)) in *.
  destruct (round_nearest_even_bounds mrs ltac:(rewrite Hm; lia)) as [Hr Hrex].
  remember (round_nearest_even (shr_m mrs) (loc_of_shr_record mrs)) as m1 eqn:Hm1def.
  rewrite Hm in Hr.
  assert (Hstep1 : shr_fexp prec emax (Zpos M) e loc_Exact = (mrs, e + Zpos pj)).
  { unfold shr_fexp. simpl Zdigits2. fold d. rewrite fexp_eq.
    replace (Z.max (d + e - 53) (-1074) - e) with (Zpos pj) by lia. reflexivity. }
  unfold binary_round_aux. rewrite Hstep1, <- Hm1def.
  destruct m1 as [| pm | pm]; [lia | | lia].
  destruct (Z.eq_dec (Zpos pm) (2 ^ 53)) as [Hbig | Hsmall].
  - (* the mantissa reached 2^53: one more shift *)
    exists (4503599627370496%positive), (e + Zpos pj + 1).
    split; [| right; split; [lia | split; [reflexivity | lia]]].
    assert (Hpm : pm = 9007199254740992%positive)
      by (change (2 ^ 53) with 9007199254740992 in Hbig; lia).
    rewrite Hpm.
    assert (Hstep2 : shr_fexp prec emax 9007199254740992 (e + Zpos pj) loc_Exact =
                     (Build_shr_record 4503599627370496 false false, e + Zpos pj + 1)).
    { unfold shr_fexp. change (Zdigits2 9007199254740992) with 54. rewrite fexp_eq.
      replace (Z.max (54 + (e + Zpos pj) - 53) (-1074) - (e + Zpos pj)) with 1 by lia.
      reflexivity. }
    rewrite Hstep2. cbn [shr_m].
    replace (e + Zpos pj + 1 <=? emax - prec) with true; [reflexivity |].
    symmetry. apply Z.leb_le. unfold emax, prec. lia.
  - exists pm, (e + Zpos pj). split.
    + assert (Hdig : Zpos (digits2_pos pm) = 53) by (apply digits2_unique; lia).
      rewrite shr_fexp_zero by (rewrite Hdig, fexp_eq; lia). cbn [shr_m].
      replace (e + Zpos pj <=? emax - prec) with true; [done |].
      symmetry. apply Z.leb_le. unfold emax, prec. lia.
    + left. split; [lia |]. split; [lia |]. split; [| lia].
      intros Hmod. destruct (Hex Hmod) as [Hr0 Hs0].
      transitivity (shr_m mrs); [by apply Hrex | exact Hm].
Qed.

(** A mantissa of at most 53 digits is exact: the result has the
    canonical exponent, never above the given one. *)
Lemma binary_round_small (M : positive) (e : Z) :
  Zpos (digits2_pos M) <= 53 ->
  -1074 <= e -> e <= 971 ->
  exists mz,
    binary_round prec emax false M e =
    S754_finite false mz (fexp prec emax (Zpos (digits2_pos M) + e)) /\
    fexp prec emax (Zpos (digits2_pos M) + e) <= e.
Proof.
  intros Hd He Hmax. pose proof (digits2_bounds M) as [Hlo Hhi].
  set (d := Zpos (digits2_pos M)) in *.
  assert (Hf : fexp prec emax (d + e) <= e) by (rewrite fexp_eq; lia).
  unfold binary_round, shl_align. fold d.
  destruct (fexp prec emax (d + e) - e) as [| sh | sh] eqn:Hsh; [| lia |].
  - exists M. split; [| done]. replace (fexp prec emax (d + e)) with e by lia.
    apply binary_round_aux_exact; [fold d; lia | lia].
  - exists (Pos.iter xO M sh). split; [| done].
    assert (Hdig : Zpos (digits2_pos (Pos.iter xO M sh)) = d + Zpos sh).
    { apply digits2_unique. rewrite iter_xO.
      replace (d + Zpos sh - 1) with (d - 1 + Zpos sh) by lia.
      rewrite !Z.pow_add_r by lia.
      assert (0 < 2 ^ Zpos sh) by (apply Z.pow_pos_nonneg; lia). nia. }
    apply binary_round_aux_exact; [| lia].
    rewrite Hdig. replace (d + Zpos sh + fexp prec emax (d + e)) with (d + e) by lia.
    reflexivity.
Qed.

Lemma binary_round_big (M : positive) (e : Z) :
  53 < Zpos (digits2_pos M) ->
  binary_round prec emax false M e = binary_round_aux prec emax false (Zpos M) e loc_Exact.
Proof.
  intros Hd. unfold binary_round, shl_align. rewrite fexp_eq.
  destruct (Z.max (Zpos (digits2_pos M) + e - 53) (-1074) - e) eqn:Hsh; try reflexivity.
  lia.
Qed.

(** The order on finite positive numbers: by exponent, then by mantissa. *)
Lemma SFleb_finite (m1 m2 : positive) (e1 e2 : Z) :
  SFleb (S754_finite false m1 e1) (S754_finite false m2 e2) = true <->
  e1 < e2 \/ (e1 = e2 /\ Zpos m1 <= Zpos m2).
Proof.
  unfold SFleb, SFcompare.
  destruct (Z.compare_spec e1 e2) as [-> | H | H].
  - change (Pos.compare_cont Eq m1 m2) with (Pos.compare m1 m2).
    destruct (Pos.compare_spec m1 m2) as [-> | H | H]; split; intros H';
      try reflexivity; try discriminate H'; try (right; split; [reflexivity | lia]); lia.
  - split; [intros _; left; exact H | reflexivity].
  - split; [discriminate | lia].
Qed.

Lemma SFleb_finite_pos (m1 : positive) (e1 : Z) :
  e1 < -46 \/ (e1 = -46 /\ Zpos m1 <= Zpos m90) ->
  SFleb (S754_finite false m1 e1) s90 = true.
Proof. apply SFleb_finite. Qed.

Lemma SFleb_finite_pos_inv (m : positive) (e : Z) :
  SFleb (S754_finite false m e) s90 = true ->
  e < -46 \/ (e = -46 /\ Zpos m <= Zpos m90).
Proof. apply SFleb_finite. Qed.

(** What validity says of a finite positive double. *)
Lemma valid_finite (m : positive) (e : Z) :
  valid_binary (S754_finite false m e) = true ->
  -1074 <= e /\ e <= 971 /\ Zpos (digits2_pos m) <= 53 /\
  (-1074 < e -> Zpos (digits2_pos m) = 53).
Proof.
  unfold SpecFloat.valid_binary, bounded, canonical_mantissa.
  intros [H1 H2]%andb_prop. apply Z.eqb_eq in H1. apply Z.leb_le in H2.
  rewrite fexp_eq in H1. change (emax - prec) with 971 in H2. lia.
Qed.

(** The subtraction 90.0 - x on the specification of binary64, for
    0 < x <= 90.0: the rounded difference is in [0, 90.0]. Below the
    binade of 90 the aligned difference may have more than 53 digits
    and is rounded, but never past 90.0; in the binade of 90 the
    difference is exact and small. *)
Lemma SFsub_90_range (x : spec_float) :
  valid_binary x = true ->
  SFltb (S754_zero false) x = true ->
  SFleb x s90 = true ->
  SFleb (S754_zero false) (SFsub prec emax s90 x) = true /\
  SFleb (SFsub prec emax s90 x) s90 = true.
Proof.
  intros Hv Hpos Hle.
  destruct x as [[] | [] | | [] m e]; try discriminate Hpos; try discriminate Hle.
  apply valid_finite in Hv as (He & Hemax & Hdm & Hcan).
  apply SFleb_finite_pos_inv in Hle.
  pose proof (digits2_bounds m) as [Hmlo Hmhi].
  assert (Hm53 : Zpos m < 2 ^ 53).
  { eapply Z.lt_le_trans; [exact Hmhi |]. apply Z.pow_le_mono_r; lia. }
  unfold SFsub, s90. cbn [cond_Zopp negb].
  assert (Hmin : Z.min (-46) e = e) by lia. rewrite Hmin.
  assert (Hx : shl_align m e e = (m, e)) by (unfold shl_align; rewrite Z.sub_diag; done).
  rewrite Hx. cbn [fst].
  destruct Hle as [Hlt | [-> Hmle]].
  - (* the operand lies below the binade of 90 *)
    assert (Hk : exists k, e - -46 = Zneg k).
    { destruct (e - -46) as [| p | p] eqn:Hp; try lia. by exists p. }
    destruct Hk as [k Hk].
    assert (H90 : shl_align m90 (-46) e = (Pos.iter xO m90 k, e))
      by (unfold shl_align; rewrite Hk; done).
    rewrite H90. cbn [fst].
    assert (HM : Zpos (Pos.iter xO m90 k) = Zpos m90 * 2 ^ Zpos k) by apply iter_xO.
    assert (H2k : 2 <= 2 ^ Zpos k).
    { change 2 with (2 ^ 1) at 1. apply Z.pow_le_mono_r; lia. }
    assert (Hm90 : 2 ^ 52 <= Zpos m90 < 2 ^ 53) by (split; vm_compute; done).
    destruct (Zpos (Pos.iter xO m90 k) - Zpos m) as [| M | M] eqn:HMz; [nia | | nia].
    unfold binary_normalize.
    destruct (Z_le_gt_dec (Zpos (digits2_pos M)) 53) as [Hd | Hd].
    + destruct (binary_round_small M e Hd He Hemax) as (mz & -> & Hf).
      split; [done |]. apply SFleb_finite_pos. left. lia.
    + rewrite binary_round_big by lia.
      pose proof (digits2_bounds M) as [HMlo HMhi].
      set (d := Zpos (digits2_pos M)) in *.
      assert (Hj : d - 53 <= Zpos k).
      { destruct (Z_le_gt_dec (d - 53) (Zpos k)) as [|Hgt]; [done | exfalso].
        assert (2 ^ (53 + Zpos k) <= 2 ^ (d - 1)) by (apply Z.pow_le_mono_r; lia).
        rewrite Z.pow_add_r in H by lia. nia. }
      destruct (binary_round_aux_round M e) as (m1 & e1 & -> & Hres); [lia | lia | fold d; lia |].
      fold d in Hres.
      split; [done |]. apply SFleb_finite_pos.
      destruct (Z.eq_dec (d - 53) (Zpos k)) as [Heq | Hne].
      * (* the shift undoes the alignment exactly *)
        assert (Hq : Zpos M / 2 ^ (d - 53) <= Zpos m90 - 1).
        { rewrite Heq. apply Z.lt_succ_r. apply Z.div_lt_upper_bound; [lia |].
          lia. }
        assert (Zpos m90 < 2 ^ 53 - 1) by (vm_compute; done).
        destruct Hres as [(-> & Hm1 & _ & _) | (-> & _ & Hbig)]; [| lia].
        right. split; lia.
      * destruct Hres as [(-> & _) | (-> & -> & _)]; [left; lia |].
        destruct (Z.eq_dec (e + (d - 53) + 1) (-46)) as [-> | ?]; [right | left; lia].
        split; [done | vm_compute; discriminate].
  - (* the operand shares the binade of 90 *)
    assert (H90 : shl_align m90 (-46) (-46) = (m90, -46)) by done.
    rewrite H90. cbn [fst].
    specialize (Hcan ltac:(lia)).
    assert (Hmlow : 2 ^ 52 <= Zpos m) by (rewrite Hcan in Hmlo; exact Hmlo).
    destruct (Zpos m90 - Zpos m) as [| M | M] eqn:HMz; [done | | lia].
    unfold binary_normalize.
    assert (HM : Zpos M < 2 ^ 52).
    { assert (Zpos m90 - 2 ^ 52 < 2 ^ 52) by (vm_compute; done). lia. }
    assert (Hd : Zpos (digits2_pos M) <= 52).
    { pose proof (digits2_bounds M) as [HMlo _].
      destruct (Z_le_gt_dec (Zpos (digits2_pos M)) 52) as [|Hgt]; [done | exfalso].
      assert (2 ^ 52 <= 2 ^ (Zpos (digits2_pos M) - 1)) by (apply Z.pow_le_mono_r; lia).
      lia. }
    destruct (binary_round_small M (-46)) as (mz & -> & Hf); [lia | lia | lia |].
    split; [done |]. apply SFleb_finite_pos. left. rewrite fexp_eq. lia.
Qed.

Lemma Prim2SF_0 : Prim2SF 0 = S754_zero false.
Proof. reflexivity. Qed.

Lemma Prim2SF_90 : Prim2SF 90 = Binary64.ninety.
Proof. reflexivity. Qed.

(** The radius of an object that passes the test [alt > 0] and is at
    most 90 degrees up lies in [0, 90]. *)
Lemma radius_range (alt : float) :
  Binary64.visible alt = true -> (alt <=? 90)%float = true ->
  (0 <=? Binary64.radius alt)%float = true /\
  (Binary64.radius alt <=? 90)%float = true.
Proof.
  unfold Binary64.visible, Binary64.radius.
  rewrite ltb_spec, !leb_spec, sub_spec, Prim2SF_0, Prim2SF_90.
  intros Hpos Hle. apply SFsub_90_range; [apply Prim2SF_valid | exact Hpos | exact Hle].
Qed.

Lemma radius_zenith : Binary64.radius 90 = 0%float.
Proof. reflexivity. Qed.

End Binary64Arithmetic.

(** In binary64 the radius reaches 90: the altitude 5e-15 (the double
    0x1.6849b86a12b9bp-48) passes the test [alt > 0] and lies in
    (0, 90], yet [90 - alt] is 90.0 itself, not below it. *)
Lemma radius_reaches_90 :
  Binary64.visible 0x1.6849b86a12b9bp-48 = true /\
  (0x1.6849b86a12b9bp-48 <=? 90)%float = true /\
  Binary64.radius 0x1.6849b86a12b9bp-48 = 90%float /\
  (Binary64.radius 0x1.6849b86a12b9bp-48 <? 90)%float = false.
Proof. repeat split. Qed.

(** ** The marker size does not grow with the magnitude *)

(** C5, as the code has it. The size never grows with the magnitude:
    for m1 < m2 the size for m1 is at least the size for m2. *)
Theorem size_non_increasing (m1 m2 : R) : m1 < m2 -> size m2 <= size m1.
Proof.
  intros H. pose proof (star_term_decreasing m1 m2 H). unfold size, py_max.
  repeat case_decide; lra.
Qed.

Lemma size_non_increasing_witness : size 2 <= size 1.
Proof. apply (size_non_increasing 1 2). lra. Defined.

(** At the floor the size no longer falls: magnitudes 20 and 21 both
    get 0.5. *)
Lemma size_not_strictly_decreasing : 20 < 21 /\ ~ (size 20 > size 21).
Proof.
  split; [lra |]. rewrite (size_faint 20), (size_faint 21) by lra. lra.
Qed.

(** Nor does every step fall above the floor: the doubles
    0x1.ffffffffffffap+1 < 0x1.ffffffffffffbp+1 (3.9999999999999973 and
    3.9999999999999978), both below 6, give [np.exp] the same argument,
    hence markers of one size. *)
Lemma size_equal_at_adjacent_doubles :
  (0x1.ffffffffffffap+1 <? 0x1.ffffffffffffbp+1)%float = true /\
  Binary64.bright 0x1.ffffffffffffap+1 = true /\
  Binary64.bright 0x1.ffffffffffffbp+1 = true /\
  Binary64.exponent 0x1.ffffffffffffap+1 = Binary64.exponent 0x1.ffffffffffffbp+1 /\
  forall np_exp : float -> float,
    Binary64.size np_exp 0x1.ffffffffffffap+1 = Binary64.size np_exp 0x1.ffffffffffffbp+1.
Proof. repeat split. Qed.

(** ** The program, for any kernel, catalog and collaborators *)

Section Theory.
Context {Kernel Position : Type} `{!Externals Kernel Position}.

#[local] Abbreviation W := (World Kernel Position).
#[local] Abbreviation place lat lon := (mkLocation earth (mkTopos lat lon)).
#[local] Abbreviation instant year month day hour := (utc year month day hour 0).
#[local] Abbreviation planet_request loc t :=
  (fun name : string => (body_of (Position := Position) name, loc, t)).

(** *** Running the two collecting loops *)

Lemma to_altaz_run (obj : Target Position) (loc : Location) (t : Time) (w : W) :
  to_altaz obj loc t w = (sight (planets w) loc t obj, asked w (obj, loc, t)).
Proof.
  unfold to_altaz, bind, observe_apparent_altaz, sight.
  destruct (altaz (planets w) loc t obj) as [[[alt az] d] | e]; reflexivity.
Qed.

Lemma for_each_collect {A E : Type} (loc : Location) (t : Time)
    (target : A -> Target Position) (entry : A -> R -> R -> E)
    (body : A -> list E -> M W (list E)) (xs : list A) :
  (forall x, x ∈ xs -> forall acc w, body x acc w = iteration loc t target entry x acc w) ->
  forall acc w res w',
    for_each xs body acc w = (res, w') ->
    exists n : nat,
      same_globals w' w /\
      observed w' = observed w ++ ((fun x => (target x, loc, t)) <$> take n xs) /\
      match res with
      | Ok acc' =>
          n = length xs /\
          acc' = acc ++ omap (above_horizon (planets w) loc t target entry) xs /\
          Forall (fun x => exists p, sight (planets w) loc t (target x) = Ok p) xs
      | Raise e =>
          Exists (fun x => sight (planets w) loc t (target x) = Raise e) xs
      end.
Proof.
  induction xs as [| x xs IH]; intros Hbody acc w res w' Hrun.
  - injection Hrun as <- <-. exists 0%nat. simpl.
    rewrite !app_nil_r. repeat split; constructor.
  - simpl in Hrun. unfold bind in Hrun.
    rewrite (Hbody x) in Hrun by left. unfold iteration in Hrun.
    destruct (sight (planets w) loc t (target x)) as [[alt az] | e] eqn:Hs.
    + apply IH in Hrun; [| intros y Hy; apply Hbody; by right].
      destruct Hrun as (n & [Hk Hst] & Hobs & Hres). exists (S n).
      simpl in Hk, Hst, Hobs, Hres. split; [done |]. split.
      { rewrite Hobs, <- app_assoc. reflexivity. }
      destruct res as [acc' | e]; [| by right].
      destruct Hres as (-> & -> & Hall). split; [done |]. split.
      * simpl. unfold above_horizon at 2. rewrite Hs.
        case_decide; [by rewrite <- app_assoc | done].
      * constructor; [by eexists | done].
    + injection Hrun as <- <-. exists 1%nat. simpl. rewrite ?take_0.
      repeat split. by left.
Qed.

Lemma for_each_collect_total {A E : Type} (loc : Location) (t : Time)
    (target : A -> Target Position) (entry : A -> R -> R -> E)
    (body : A -> list E -> M W (list E)) (xs : list A) :
  (forall x, x ∈ xs -> forall acc w, body x acc w = iteration loc t target entry x acc w) ->
  forall acc w,
    Forall (fun x => exists p, sight (planets w) loc t (target x) = Ok p) xs ->
    for_each xs body acc w =
    (Ok (acc ++ omap (above_horizon (planets w) loc t target entry) xs),
     mkWorld (planets w) (stars w)
             (observed w ++ ((fun x => (target x, loc, t)) <$> xs))).
Proof.
  intros Hbody acc w Hall.
  destruct (for_each xs body acc w) as [res w'] eqn:Hrun.
  destruct (for_each_collect loc t target entry body xs Hbody _ _ _ _ Hrun)
    as (n & [Hk Hst] & Hobs & Hres).
  destruct res as [acc' | e].
  - destruct Hres as (-> & -> & _). rewrite firstn_all in Hobs.
    destruct w' as [k s o]. simpl in Hk, Hst, Hobs. by subst.
  - apply Exists_exists in Hres as (x & Hx & Hraise).
    rewrite Forall_forall in Hall. destruct (Hall x Hx) as [p Hp]. congruence.
Qed.

Lemma bodies_selected (name : string) :
  name ∈ selected_planets -> bodies (Position := Position) !! name = Some (body_of name).
Proof.
  unfold selected_planets. rewrite !elem_of_cons, elem_of_nil.
  intros [-> | [-> | [-> | [-> | [-> | []]]]]]; reflexivity.
Qed.


Lemma planet_iteration (loc : Location) (t : Time) (name : string)
    (acc : list (string * R * R)) (w : W) :
  name ∈ selected_planets ->
  (body <- dict_getitem bodies name;
   '(alt, az) <- to_altaz body loc t;
   if decide (alt > 0) then ret (acc ++ [(name, alt, az)]) else ret acc) w
  = iteration loc t body_of planet_entry name acc w.
Proof.
  intros Hname. unfold bind, dict_getitem.
  rewrite (bodies_selected name Hname). unfold ret. rewrite to_altaz_run.
  unfold iteration, planet_entry.
  destruct (sight (planets w) loc t (body_of name)) as [[alt az] | e];
    [case_decide |]; reflexivity.
Qed.

Lemma collect_planets_run (loc : Location) (t : Time) (w : W)
    (res : result (list (string * R * R))) (w' : W) :
  collect_planets loc t w = (res, w') ->
  exists n : nat,
    same_globals w' w /\
    observed w' = observed w ++ ((fun x => (body_of x, loc, t)) <$> take n selected_planets) /\
    match res with
    | Ok pd =>
        n = length selected_planets /\
        pd = omap (above_horizon (planets w) loc t body_of planet_entry) selected_planets /\
        Forall (fun x => exists p, sight (planets w) loc t (body_of x) = Ok p) selected_planets
    | Raise e =>
        Exists (fun x => sight (planets w) loc t (body_of x) = Raise e) selected_planets
    end.
Proof.
  unfold collect_planets. intros Hrun.
  eapply (for_each_collect loc t body_of planet_entry) in Hrun; [exact Hrun |].
  intros name Hname acc w0. by apply planet_iteration.
Qed.

Lemma star_iteration (loc : Location) (t : Time) (e : Z * HipRow Position)
    (acc : list (R * R * R * Z)) (w : W) :
  (let '(hip, row) := e in
   fun star_data : list (R * R * R * Z) =>
     let star := Star_from_dataframe row in
     '(alt, az) <- to_altaz star loc t;
     if decide (alt > 0)
     then ret (star_data ++ [(magnitude row, alt, az, hip)])
     else ret star_data) acc w
  = iteration loc t (fun e => Star_from_dataframe e.2) star_entry e acc w.
Proof.
  destruct e as [hip row]. unfold bind, ret. rewrite to_altaz_run.
  unfold iteration, star_entry. simpl.
  destruct (sight (planets w) loc t (Star_from_dataframe row)) as [[alt az] | e];
    [case_decide |]; reflexivity.
Qed.

Lemma collect_stars_run (loc : Location) (t : Time) (w : W)
    (res : result (list (R * R * R * Z))) (w' : W) :
  collect_stars loc t w = (res, w') ->
  exists n : nat,
    same_globals w' w /\
    observed w' = observed w ++ (star_request loc t <$> take n (bright_stars (stars w))) /\
    match res with
    | Ok sd =>
        n = length (bright_stars (stars w)) /\
        sd = omap (above_horizon (planets w) loc t
                     (fun e => Star_from_dataframe e.2) star_entry) (bright_stars (stars w)) /\
        Forall (fun e => exists p, sight (planets w) loc t (Star_from_dataframe e.2) = Ok p)
               (bright_stars (stars w))
    | Raise e =>
        Exists (fun x => sight (planets w) loc t (Star_from_dataframe x.2) = Raise e)
               (bright_stars (stars w))
    end.
Proof.
  unfold collect_stars, bind, get_stars. intros Hrun.
  eapply (for_each_collect loc t (fun e => Star_from_dataframe e.2) star_entry)
    in Hrun; [exact Hrun |].
  intros e _ acc w0. apply star_iteration.
Qed.

Lemma collect_planets_total (loc : Location) (t : Time) (w : W) :
  Forall (fun x => exists p, sight (planets w) loc t (body_of x) = Ok p) selected_planets ->
  collect_planets loc t w =
  (Ok (omap (above_horizon (planets w) loc t body_of planet_entry) selected_planets),
   mkWorld (planets w) (stars w)
           (observed w ++ ((fun x => (body_of x, loc, t)) <$> selected_planets))).
Proof.
  intros Hall. unfold collect_planets.
  rewrite (for_each_collect_total loc t body_of planet_entry); [done | | done].
  intros name Hname acc w0. by apply planet_iteration.
Qed.

Lemma collect_stars_total (loc : Location) (t : Time) (w : W) :
  Forall (fun e => exists p, sight (planets w) loc t (Star_from_dataframe e.2) = Ok p)
         (bright_stars (stars w)) ->
  collect_stars loc t w =
  (Ok (omap (above_horizon (planets w) loc t
               (fun e => Star_from_dataframe e.2) star_entry) (bright_stars (stars w))),
   mkWorld (planets w) (stars w)
           (observed w ++ (star_request loc t <$> bright_stars (stars w)))).
Proof.
  intros Hall. unfold collect_stars, bind, get_stars.
  rewrite (for_each_collect_total loc t (fun e => Star_from_dataframe e.2) star_entry);
    [done | | done].
  intros e _ acc w0. apply star_iteration.
Qed.

(** *** The visible lists and the chart *)

Lemma add_traces_data {A : Type} (f : A -> Scatterpolar) (xs : list A) (fig : Figure) :
  data (fold_left (fun fig x => add_trace fig (f x)) xs fig) = data fig ++ (f <$> xs).
Proof.
  revert fig. induction xs as [| x xs IH]; intros fig; simpl.
  - by rewrite app_nil_r.
  - rewrite IH. simpl. by rewrite <- app_assoc.
Qed.

Lemma draw_data (pd : list (string * R * R)) (sd : list (R * R * R * Z)) :
  data (draw pd sd) = (star_trace <$> sd) ++ (planet_trace <$> pd).
Proof. unfold draw, sky_layout. simpl. by rewrite !add_traces_data. Qed.

Lemma visible_planet (k : Kernel) (loc : Location) (t : Time) (l : list string)
    (name : string) (alt az : R) :
  (name, alt, az) ∈ omap (above_horizon k loc t body_of planet_entry) l <->
  name ∈ l /\ sight k loc t (body_of name) = Ok (alt, az) /\ alt > 0.
Proof.
  rewrite list_elem_of_omap. unfold above_horizon, planet_entry. split.
  - intros (x & Hx & Hsome).
    destruct (sight k loc t (body_of x)) as [[a z] | e] eqn:Hs; [| done].
    case_decide; [| done]. injection Hsome as -> -> ->. done.
  - intros (Hin & Hs & Hpos). exists name. split; [done |].
    rewrite Hs. by rewrite decide_True.
Qed.

Lemma visible_star (k : Kernel) (loc : Location) (t : Time)
    (l : DataFrame Position) (mag alt az : R) (hip : Z) :
  (mag, alt, az, hip) ∈
    omap (above_horizon k loc t (fun e => Star_from_dataframe e.2) star_entry) l <->
  exists row, (hip, row) ∈ l /\ magnitude row = mag /\
              sight k loc t (Star_from_dataframe row) = Ok (alt, az) /\ alt > 0.
Proof.
  rewrite list_elem_of_omap. unfold above_horizon, star_entry. split.
  - intros ([h row] & Hx & Hsome). simpl in Hsome.
    destruct (sight k loc t (Star_from_dataframe row)) as [[a z] | e] eqn:Hs; [| done].
    case_decide; [| done]. injection Hsome as <- <- <- <-. by exists row.
  - intros (row & Hin & <- & Hs & Hpos). exists (hip, row). split; [done |].
    simpl. rewrite Hs. by rewrite decide_True.
Qed.

Lemma elem_of_bright (df : DataFrame Position) (e : Z * HipRow Position) :
  e ∈ bright_stars df <-> e ∈ df /\ magnitude e.2 < 6.
Proof. unfold bright_stars. rewrite list_elem_of_filter. tauto. Qed.








(** *** One run of [make_sky_map] *)

Lemma same_globals_refl (w : W) : same_globals w w.
Proof. by split. Qed.

Lemma same_globals_sym (w w' : W) : same_globals w w' -> same_globals w' w.
Proof. intros [? ?]. by split. Qed.

Lemma same_globals_trans (w1 w2 w3 : W) :
  same_globals w1 w2 -> same_globals w2 w3 -> same_globals w1 w3.
Proof. intros [? ?] [? ?]. split; congruence. Qed.

Lemma make_sky_map_run (lat lon : R) (year month day hour : Z) (w : W)
    (res : result Figure) (w' : W) :
  make_sky_map lat lon year month day hour w = (res, w') ->
  exists n1 n2 : nat,
    same_globals w' w /\
    observed w' =
      observed w
      ++ (planet_request (place lat lon) (instant year month day hour)
            <$> take n1 selected_planets)
      ++ (star_request (place lat lon) (instant year month day hour)
            <$> take n2 (bright_stars (stars w))) /\
    match res with
    | Ok fig =>
        exists pd sd w1,
          collect_planets (place lat lon) (instant year month day hour) w = (Ok pd, w1) /\
          collect_stars (place lat lon) (instant year month day hour) w1 = (Ok sd, w') /\
          fig = draw pd sd
    | Raise e => True
    end.
Proof.
  unfold make_sky_map, bind. intros Hrun.
  destruct (collect_planets _ _ w) as [[pd | e] w1] eqn:Hp.
  - destruct (collect_planets_run _ _ _ _ _ Hp) as (n1 & Hg1 & Hobs1 & _).
    destruct (collect_stars _ _ w1) as [[sd | e] w2] eqn:Hs.
    + destruct (collect_stars_run _ _ _ _ _ Hs) as (n2 & Hg2 & Hobs2 & _).
      injection Hrun as <- <-. exists n1, n2.
      split; [by eapply same_globals_trans |]. split.
      * rewrite Hobs2, Hobs1. destruct Hg1 as [_ ->]. by rewrite <- app_assoc.
      * by exists pd, sd, w1.
    + destruct (collect_stars_run _ _ _ _ _ Hs) as (n2 & Hg2 & Hobs2 & _).
      injection Hrun as <- <-. exists n1, n2.
      split; [by eapply same_globals_trans |]. split; [| done].
      rewrite Hobs2, Hobs1. destruct Hg1 as [_ ->]. by rewrite <- app_assoc.
  - destruct (collect_planets_run _ _ _ _ _ Hp) as (n1 & Hg1 & Hobs1 & _).
    injection Hrun as <- <-. exists n1, 0%nat.
    split; [done |]. split; [| done]. by rewrite Hobs1, take_0, app_nil_r.
Qed.

(** *** Order of the traces, and the empty sky *)

Lemma visible_planets_sublist (k : Kernel) (loc : Location) (t : Time) (l : list string) :
  sublist ((fun p => p.1.1) <$> omap (above_horizon k loc t body_of planet_entry) l) l.
Proof.
  induction l as [| x l IH]; simpl; [constructor |].
  unfold above_horizon at 1. destruct (sight k loc t (body_of x)) as [[alt az] | e].
  - case_decide; [by apply sublist_skip | by apply sublist_cons].
  - by apply sublist_cons.
Qed.

Lemma visible_stars_sublist (k : Kernel) (loc : Location) (t : Time)
    (l : DataFrame Position) :
  sublist
    ((fun s => s.2) <$>
       omap (above_horizon k loc t (fun e => Star_from_dataframe e.2) star_entry) l)
    (fst <$> l).
Proof.
  induction l as [| x l IH]; simpl; [constructor |].
  unfold above_horizon at 1.
  destruct (sight k loc t (Star_from_dataframe x.2)) as [[alt az] | e].
  - case_decide; [by apply sublist_skip | by apply sublist_cons].
  - by apply sublist_cons.
Qed.

Lemma none_above_horizon {A E : Type} (k : Kernel) (loc : Location) (t : Time)
    (target : A -> Target Position) (entry : A -> R -> R -> E) (l : list A) :
  (forall x, x ∈ l ->
     exists alt az, sight k loc t (target x) = Ok (alt, az) /\ alt <= 0) ->
  omap (above_horizon k loc t target entry) l = [] /\
  Forall (fun x => exists p, sight k loc t (target x) = Ok p) l.
Proof.
  induction l as [| x l IH]; intros Hall; simpl; [by split |].
  destruct IH as [IH1 IH2]; [intros y Hy; apply Hall; by right |].
  destruct (Hall x) as (alt & az & Hs & Hle); [by left |]. split.
  - unfold above_horizon at 1. rewrite Hs.
    rewrite decide_False by lra. exact IH1.
  - constructor; [by eexists | exact IH2].
Qed.

Lemma single_point_traces (pd : list (string * R * R)) (sd : list (R * R * R * Z)) :
  Forall (fun tr => length (r tr) = 1%nat /\ length (theta tr) = 1%nat)
         (data (draw pd sd)).
Proof.
  rewrite draw_data. apply Forall_app. split; apply Forall_fmap, Forall_forall.
  - by intros [[[mag alt] az] hip] _.
  - by intros [[name alt] az] _.
Qed.

(** *** The magnitude cut and the requests sent *)

(** C2. A catalog entry is handed to [to_altaz] only if its magnitude
    is strictly below 6: the loop runs over the filtered frame, an
    entry of magnitude 6 or more is not in it, and the requests the
    loop (and the whole of [make_sky_map]) sends for stars are, in
    order, those of an initial part of the filtered frame -- of all of
    it when the loop returns, whatever the altitudes turn out to be. *)
Theorem only_bright_stars_projected (lat lon : R) (year month day hour : Z) (w : W) :
  (forall e, e ∈ bright_stars (stars w) <-> e ∈ stars w /\ magnitude e.2 < 6) /\
  (forall e, 6 <= magnitude e.2 -> e ∉ bright_stars (stars w)) /\
  (exists n : nat,
      observed (collect_stars (place lat lon) (instant year month day hour) w).2 =
        observed w
        ++ (star_request (place lat lon) (instant year month day hour)
              <$> take n (bright_stars (stars w))) /\
      (forall sd,
          (collect_stars (place lat lon) (instant year month day hour) w).1 = Ok sd ->
          n = length (bright_stars (stars w))) /\
      (forall q,
          q ∈ star_request (place lat lon) (instant year month day hour)
                <$> take n (bright_stars (stars w)) ->
          exists e, e ∈ stars w /\ magnitude e.2 < 6 /\
                    q = (Star_from_dataframe e.2, place lat lon,
                         instant year month day hour))) /\
  (exists n1 n2 : nat,
      observed (make_sky_map lat lon year month day hour w).2 =
        observed w
        ++ (planet_request (place lat lon) (instant year month day hour)
              <$> take n1 selected_planets)
        ++ (star_request (place lat lon) (instant year month day hour)
              <$> take n2 (bright_stars (stars w)))).
Proof.
  split; [intros e; apply elem_of_bright |].
  split; [intros e Hmag [_ Hlt]%elem_of_bright; lra |].
  split.
  - destruct (collect_stars _ _ w) as [res w'] eqn:Hrun.
    destruct (collect_stars_run _ _ _ _ _ Hrun) as (n & _ & Hobs & Hres).
    exists n. split; [exact Hobs |]. split.
    + simpl. intros sd ->. by destruct Hres.
    + intros q (e & -> & He)%list_elem_of_fmap.
      apply elem_of_take in He as (i & He & _).
      apply list_elem_of_lookup_2, elem_of_bright in He as [He Hlt].
      by exists e.
  - destruct (make_sky_map lat lon year month day hour w) as [res w'] eqn:Hrun.
    destruct (make_sky_map_run _ _ _ _ _ _ _ _ _ Hrun) as (n1 & n2 & _ & Hobs & _).
    by exists n1, n2.
Qed.

(** *** The chart and the handler *)

(** C3, as the code has it. Every trace of the chart belongs to an
    entry of a visible list and has the single radius 90 - alt and the
    single angle az of that entry; for an altitude in (0, 90] the
    radius lies in the closed interval [0, 90], and at altitude 90 it
    is 0. Both bounds and the zenith hold of the binary64 subtraction
    the code performs on any altitude that passes the test [alt > 0]
    and is at most 90; there the radius can be 90.0 itself. *)
Theorem polar_mapping_closed_range (pd : list (string * R * R))
    (sd : list (R * R * R * Z)) (tr : Scatterpolar) :
  tr ∈ data (draw pd sd) ->
  (exists alt az : R,
      ((exists name, (name, alt, az) ∈ pd /\ tr = planet_trace (name, alt, az)) \/
       (exists mag hip, (mag, alt, az, hip) ∈ sd /\ tr = star_trace (mag, alt, az, hip))) /\
      r tr = [90 - alt] /\
      theta tr = [az] /\
      (0 < alt <= 90 -> 0 <= 90 - alt <= 90) /\
      (alt = 90 -> r tr = [0])) /\
  (forall a : float,
      Binary64.visible a = true -> (a <=? 90)%float = true ->
      (0 <=? Binary64.radius a)%float = true /\
      (Binary64.radius a <=? 90)%float = true) /\
  Binary64.radius 90 = 0%float.
Proof.
  intros Hin. split; [| split; [exact radius_range | exact radius_zenith]].
  revert Hin. rewrite draw_data. intros [Hin | Hin]%elem_of_app.
  - apply list_elem_of_fmap in Hin as ([[[mag alt] az] hip] & -> & Hs).
    exists alt, az. split; [right; by exists mag, hip |].
    repeat split; try lra. intros ->. simpl. f_equal. lra.
  - apply list_elem_of_fmap in Hin as ([[name alt] az] & -> & Hp).
    exists alt, az. split; [left; by exists name |].
    repeat split; try lra. intros ->. simpl. f_equal. lra.
Qed.

(** C4. The marker of a star trace has size
    max(0.5, 12 * e^(-0.4 * (mag - 1.0))); at magnitude 1.0 this is 12,
    it is never below 0.5, and at magnitude 20 it is 0.5. *)
Theorem star_marker_size (mag alt az : R) (hip : Z) :
  marker_size (marker (star_trace (mag, alt, az, hip))) =
    Rmax 0.5 (12 * exp (-0.4 * (mag - 1.0))) /\
  marker_size (marker (star_trace (1.0, alt, az, hip))) = 12 /\
  0.5 <= marker_size (marker (star_trace (mag, alt, az, hip))) /\
  marker_size (marker (star_trace (20, alt, az, hip))) = 0.5.
Proof.
  simpl. split; [apply py_max_Rmax |]. split; [apply size_at_1 |].
  split; [apply size_floor |]. apply size_faint. lra.
Qed.

(** C7. The marker of a planet trace has size 15, a black outline of
    width 1 and the colour [planet_colors.get(name, "lightgray")];
    a name outside the map, such as the Moon and the Sun, gets
    "lightgray". The chart's planet traces are these traces. *)
Theorem planet_marker (name : string) (alt az : R)
    (pd : list (string * R * R)) (sd : list (R * R * R * Z)) :
  marker (planet_trace (name, alt, az)) =
    {| marker_size := 15;
       marker_color := default "lightgray" (planet_colors !! name);
       marker_opacity := None;
       marker_line := Some {| line_color := "black"; line_width := 1 |} |} /\
  (planet_colors !! name = None ->
   marker_color (marker (planet_trace (name, alt, az))) = "lightgray") /\
  planet_colors !! "Moon" = None /\
  planet_colors !! "Sun" = None /\
  marker_color (marker (planet_trace ("Moon", alt, az))) = "lightgray" /\
  marker_color (marker (planet_trace ("Sun", alt, az))) = "lightgray" /\
  data (draw pd sd) = (star_trace <$> sd) ++ (planet_trace <$> pd).
Proof.
  split; [simpl; unfold dict_get; by destruct (planet_colors !! name) |].
  split; [simpl; unfold dict_get; by intros -> |].
  repeat (split; [reflexivity |]). apply draw_data.
Qed.

(** C8. [update_map] with a key that is not in [locations] raises
    [KeyError(key)] before anything else happens (no request is sent,
    no figure is made); with a key that is in the table the lookup
    yields its pair and the handler goes on with the parsing of the
    date and [make_sky_map]. *)
Theorem unknown_location_raises (city date : string) (hour : Z) (w : W) :
  match locations !! city with
  | None => update_map city date hour w = (Raise (KeyError city), w)
  | Some (lat, lon) =>
      dict_getitem locations city w = (Ok (lat, lon), w) /\
      update_map city date hour w =
        (dt <- lift (fromisoformat date);
         fig <- make_sky_map lat lon (dt_year dt) (dt_month dt) (dt_day dt) hour;
         ret fig) w
  end.
Proof.
  unfold update_map, dict_getitem. unfold bind at 1.
  destruct (locations !! city) as [[lat lon] |]; [split |]; reflexivity.
Qed.

(** C9. When [make_sky_map] returns, the chart has one single-point
    trace per entry of the two visible lists: first the star traces,
    in the order of the filtered catalog, then the planet traces, in
    the order Mercury, Venus, Mars, Moon, Sun. *)
Theorem trace_order (lat lon : R) (year month day hour : Z) (w w' : W) (fig : Figure) :
  make_sky_map lat lon year month day hour w = (Ok fig, w') ->
  exists pd sd w1,
    collect_planets (place lat lon) (instant year month day hour) w = (Ok pd, w1) /\
    collect_stars (place lat lon) (instant year month day hour) w1 = (Ok sd, w') /\
    data fig = (star_trace <$> sd) ++ (planet_trace <$> pd) /\
    length (data fig) = (length sd + length pd)%nat /\
    Forall (fun tr => length (r tr) = 1%nat /\ length (theta tr) = 1%nat) (data fig) /\
    sublist ((fun s => s.2) <$> sd) (fst <$> bright_stars (stars w)) /\
    sublist ((fun p => p.1.1) <$> pd) ["Mercury"; "Venus"; "Mars"; "Moon"; "Sun"].
Proof.
  intros Hrun.
  destruct (make_sky_map_run _ _ _ _ _ _ _ _ _ Hrun)
    as (_ & _ & _ & _ & pd & sd & w1 & Hp & Hs & ->).
  exists pd, sd, w1. split; [done |]. split; [done |].
  split; [apply draw_data |].
  split; [by rewrite draw_data, length_app, !length_fmap |].
  split; [apply single_point_traces |].
  destruct (collect_planets_run _ _ _ _ _ Hp) as (_ & [Hk Hst] & _ & _ & -> & _).
  destruct (collect_stars_run _ _ _ _ _ Hs) as (_ & _ & _ & _ & -> & _).
  rewrite Hst. split; [apply visible_stars_sublist | apply visible_planets_sublist].
Qed.

(** C10. When every request is answered and no altitude is positive,
    [make_sky_map] returns a figure with no trace and the fixed dark
    layout. *)
Theorem empty_sky_still_renders (lat lon : R) (year month day hour : Z) (w : W) :
  (forall name obj,
      name ∈ selected_planets -> bodies !! name = Some obj ->
      exists alt az,
        (to_altaz obj (place lat lon) (instant year month day hour) w).1
          = Ok (alt, az) /\ alt <= 0) ->
  (forall hip row,
      (hip, row) ∈ bright_stars (stars w) ->
      exists alt az,
        (to_altaz (Star_from_dataframe row) (place lat lon)
           (instant year month day hour) w).1 = Ok (alt, az) /\ alt <= 0) ->
  exists fig w',
    make_sky_map lat lon year month day hour w = (Ok fig, w') /\
    data fig = [] /\
    layout fig =
      {| polar :=
           Some {| bgcolor := "black";
                   radialaxis := {| radial_visible := false; radial_range := [0; 90];
                                    radial_showgrid := false |};
                   angularaxis := {| direction := "clockwise"; rotation := 180;
                                     showline := false; showticklabels := false;
                                     angular_showgrid := false |} |};
         showlegend := Some false;
         paper_bgcolor := Some "black";
         plot_bgcolor := Some "black" |}.
Proof.
  intros Hplanets Hstars.
  destruct (none_above_horizon (planets w) (place lat lon)
              (instant year month day hour) body_of planet_entry selected_planets)
    as [Hpd Hpok].
  { intros name Hname.
    destruct (Hplanets name (body_of name)) as (alt & az & Hs & Hle);
      [done | by apply bodies_selected |].
    rewrite to_altaz_run in Hs. by exists alt, az. }
  destruct (none_above_horizon (planets w) (place lat lon)
              (instant year month day hour)
              (fun e => Star_from_dataframe e.2) star_entry (bright_stars (stars w)))
    as [Hsd Hsok].
  { intros [hip row] He.
    destruct (Hstars hip row He) as (alt & az & Hs & Hle).
    rewrite to_altaz_run in Hs. by exists alt, az. }
  eexists _, _. split.
  - unfold make_sky_map, bind. rewrite collect_planets_total by done.
    rewrite collect_stars_total by done. unfold ret. reflexivity.
  - simpl planets. simpl stars. rewrite Hpd, Hsd. by split.
Qed.

End Theory.

(** ** The concrete sky, evaluated *)

Ltac decide_reals :=
  repeat match goal with
  | |- context [decide (?a > ?b)] =>
      first [ rewrite (decide_True (P := a > b)) by lra
            | rewrite (decide_False (P := a > b)) by lra ]
  | |- context [decide (?a < ?b)] =>
      first [ rewrite (decide_True (P := a < b)) by lra
            | rewrite (decide_False (P := a < b)) by lra ]
  end.

Lemma body_of_Mercury {P : Type} : body_of (Position := P) "Mercury" = Body 199.
Proof. reflexivity. Qed.

Lemma body_of_Venus {P : Type} : body_of (Position := P) "Venus" = Body 299.
Proof. reflexivity. Qed.

Lemma body_of_Mars {P : Type} : body_of (Position := P) "Mars" = Body 499.
Proof. reflexivity. Qed.

Lemma body_of_Moon {P : Type} : body_of (Position := P) "Moon" = Body 301.
Proof. reflexivity. Qed.

Lemma body_of_Sun {P : Type} : body_of (Position := P) "Sun" = Body 10.
Proof. reflexivity. Qed.

Ltac eval_bodies :=
  rewrite ?body_of_Mercury, ?body_of_Venus, ?body_of_Mars, ?body_of_Moon, ?body_of_Sun.

Module DemoRuns.
Import Demo.

Lemma demo_bright :
  bright_stars demo_stars = [ (11%Z, mkHipRow 1.5 1%Z); (13%Z, mkHipRow 2.5 3%Z) ].
Proof. unfold bright_stars, demo_stars. cbn. decide_reals. reflexivity. Qed.

Lemma demo_planets_run :
  collect_planets (Externals0 := demo_externals) san_francisco solstice demo_world
  = (Ok [("Moon", 35, 120)], after_planets).
Proof.
  rewrite collect_planets_total.
  - unfold selected_planets, above_horizon, sight, planet_entry.
    cbn [omap list_omap fmap list_fmap]. eval_bodies. cbn. decide_reals. reflexivity.
  - unfold selected_planets, sight. repeat constructor; eval_bodies; cbn; by eexists.
Qed.

Lemma demo_stars_run :
  collect_stars (Externals0 := demo_externals) san_francisco solstice after_planets
  = (Ok [(1.5, 50, 10, 11%Z)], after_stars).
Proof.
  rewrite collect_stars_total.
  - cbn [planets stars after_planets observed]. rewrite demo_bright.
    unfold above_horizon, sight, star_entry, star_request. cbn. decide_reals.
    reflexivity.
  - cbn [planets stars after_planets observed]. rewrite demo_bright.
    unfold sight. repeat constructor; cbn; by eexists.
Qed.

End DemoRuns.

(** ** The statements at the concrete sky *)

#[local] Existing Instance Demo.demo_externals.



Lemma polar_mapping_closed_range_witness :
  (exists alt az : R,
      ((exists name,
           (name, alt, az) ∈ [("Moon", 90, 10)] /\
           planet_trace ("Moon", 90, 10) = planet_trace (name, alt, az)) \/
       (exists mag hip,
           (mag, alt, az, hip) ∈ [] /\
           planet_trace ("Moon", 90, 10) =
             star_trace (Externals0 := Demo.demo_externals) (mag, alt, az, hip))) /\
      r (planet_trace ("Moon", 90, 10)) = [90 - alt] /\
      theta (planet_trace ("Moon", 90, 10)) = [az] /\
      (0 < alt <= 90 -> 0 <= 90 - alt <= 90) /\
      (alt = 90 -> r (planet_trace ("Moon", 90, 10)) = [0])) /\
  (forall a : float,
      Binary64.visible a = true -> (a <=? 90)%float = true ->
      (0 <=? Binary64.radius a)%float = true /\
      (Binary64.radius a <=? 90)%float = true) /\
  Binary64.radius 90 = 0%float.
Proof.
  apply (polar_mapping_closed_range (Externals0 := Demo.demo_externals)
           [("Moon", 90, 10)] []).
  rewrite draw_data. simpl. apply list_elem_of_here.
Defined.

Lemma demo_make_sky_map_run :
  make_sky_map (Externals0 := Demo.demo_externals) 37.7749 (-122.4194) 2024 6 21 22
    Demo.demo_world
  = (Ok (draw [("Moon", 35, 120)] [(1.5, 50, 10, 11%Z)]), Demo.after_stars).
Proof.
  unfold make_sky_map, bind.
  change (mkLocation earth (mkTopos 37.7749 (-122.4194))) with Demo.san_francisco.
  change (utc 2024 6 21 22 0) with Demo.solstice.
  rewrite DemoRuns.demo_planets_run, DemoRuns.demo_stars_run. reflexivity.
Qed.

(** The handler on a key of the table, and on a name that is not one. *)
Example locations_San_Francisco :
  locations !! "San Francisco" = Some (37.7749, -122.4194).
Proof. reflexivity. Qed.

Example locations_count : base.size (dom locations) = 29%nat.
Proof. reflexivity. Qed.

Example update_map_San_Francisco :
  update_map "San Francisco" "2024-06-21" 22 Demo.demo_world
  = (Ok (draw [("Moon", 35, 120)] [(1.5, 50, 10, 11%Z)]), Demo.after_stars).
Proof.
  unfold update_map, dict_getitem. unfold bind at 1.
  change (locations !! "San Francisco") with (Some (37.7749, -122.4194)).
  cbv beta iota. unfold ret at 1. unfold bind at 1.
  change (fromisoformat "2024-06-21") with (Ok (mkDateTime 2024 6 21)).
  unfold lift, ret at 1. cbv beta iota. unfold bind at 1.
  change (dt_year _) with 2024%Z. change (dt_month _) with 6%Z.
  change (dt_day _) with 21%Z.
  rewrite demo_make_sky_map_run. reflexivity.
Qed.

Example update_map_Atlantis (date : string) (hour : Z) :
  update_map "Atlantis" date hour Demo.demo_world
  = (Raise (KeyError "Atlantis"), Demo.demo_world).
Proof. reflexivity. Qed.

Lemma trace_order_witness :
  exists pd sd w1,
    collect_planets (Externals0 := Demo.demo_externals)
      (mkLocation earth (mkTopos 37.7749 (-122.4194))) (utc 2024 6 21 22 0)
      Demo.demo_world = (Ok pd, w1) /\
    collect_stars (mkLocation earth (mkTopos 37.7749 (-122.4194))) (utc 2024 6 21 22 0)
      w1 = (Ok sd, Demo.after_stars) /\
    data (draw [("Moon", 35, 120)] [(1.5, 50, 10, 11%Z)]) =
      (star_trace <$> sd) ++ (planet_trace <$> pd) /\
    length (data (draw (Externals0 := Demo.demo_externals)
                    [("Moon", 35, 120)] [(1.5, 50, 10, 11%Z)])) =
      (length sd + length pd)%nat /\
    Forall (fun tr => length (r tr) = 1%nat /\ length (theta tr) = 1%nat)
           (data (draw (Externals0 := Demo.demo_externals)
                    [("Moon", 35, 120)] [(1.5, 50, 10, 11%Z)])) /\
    sublist ((fun s => s.2) <$> sd) (fst <$> bright_stars Demo.demo_stars) /\
    sublist ((fun p => p.1.1) <$> pd) ["Mercury"; "Venus"; "Mars"; "Moon"; "Sun"].
Proof.
  exact (trace_order (Externals0 := Demo.demo_externals) _ _ _ _ _ _ _ _ _
           demo_make_sky_map_run).
Defined.

Lemma empty_sky_still_renders_witness :
  exists fig w',
    make_sky_map (Externals0 := Demo.dark_externals) 37.7749 (-122.4194) 2024 6 21 22
      Demo.demo_world = (Ok fig, w') /\
    data fig = [] /\
    layout fig =
      {| polar :=
           Some {| bgcolor := "black";
                   radialaxis := {| radial_visible := false; radial_range := [0; 90];
                                    radial_showgrid := false |};
                   angularaxis := {| direction := "clockwise"; rotation := 180;
                                     showline := false; showticklabels := false;
                                     angular_showgrid := false |} |};
         showlegend := Some false;
         paper_bgcolor := Some "black";
         plot_bgcolor := Some "black" |}.
Proof.
  apply (empty_sky_still_renders (Externals0 := Demo.dark_externals)).
  - intros name obj _ _. exists (-10), 180. split; [reflexivity | lra].
  - intros hip row _. exists (-10), 180. split; [reflexivity | lra].
Defined.

(** * Further properties of the program *)

(** ** Failing requests *)

Section Failures.
Context {Kernel Position : Type} `{!Externals Kernel Position}.

#[local] Abbreviation W := (World Kernel Position).
#[local] Abbreviation place lat lon := (mkLocation earth (mkTopos lat lon)).
#[local] Abbreviation instant year month day hour := (utc year month day hour 0).

Lemma sight_answered (k : Kernel) (loc : Location) (t : Time) (obj : Target Position) :
  (exists p, sight k loc t obj = Ok p) <-> answered k (obj, loc, t).
Proof.
  unfold sight, answered. simpl. split.
  - intros [p Hp]. destruct (altaz k loc t obj) as [a | e]; [by exists a | done].
  - intros [[[alt az] d] ->]. by eexists.
Qed.

Lemma sight_refused (k : Kernel) (loc : Location) (t : Time) (obj : Target Position)
    (e : exn) :
  sight k loc t obj = Raise e <-> refused k (obj, loc, t) e.
Proof.
  unfold sight, refused. simpl.
  destruct (altaz k loc t obj) as [[[alt az] d] | e']; split; congruence.
Qed.

(** A collecting loop that raises stopped at the first request skyfield
    refused, with skyfield's exception. *)
Lemma for_each_collect_raise {A E : Type} (loc : Location) (t : Time)
    (target : A -> Target Position) (entry : A -> R -> R -> E)
    (body : A -> list E -> M W (list E)) (xs : list A) :
  (forall x, x ∈ xs -> forall acc w, body x acc w = iteration loc t target entry x acc w) ->
  forall acc w e w',
    for_each xs body acc w = (Raise e, w') ->
    exists pre x post,
      xs = pre ++ x :: post /\
      Forall (fun y => answered (planets w) (target y, loc, t)) pre /\
      refused (planets w) (target x, loc, t) e /\
      same_globals w' w /\
      observed w' = observed w ++ ((fun y => (target y, loc, t)) <$> (pre ++ [x])).
Proof.
  induction xs as [| x xs IH]; intros Hbody acc w e w' Hrun; [done |].
  simpl in Hrun. unfold bind in Hrun.
  rewrite (Hbody x) in Hrun by left. unfold iteration in Hrun.
  destruct (sight (planets w) loc t (target x)) as [[alt az] | e0] eqn:Hs.
  - apply IH in Hrun; [| intros y Hy; apply Hbody; by right].
    destruct Hrun as (pre & y & post & -> & Hpre & Hy & [Hk Hst] & Hobs).
    simpl in Hpre, Hy, Hk, Hst, Hobs.
    exists (x :: pre), y, post. split; [done |]. split.
    { constructor; [apply sight_answered; by eexists | done]. }
    split; [done |]. split; [done |].
    rewrite Hobs, <- app_assoc. reflexivity.
  - injection Hrun as <- <-. exists [], x, xs. split; [done |].
    split; [constructor |]. split; [by apply sight_refused |]. by split.
Qed.


Lemma collect_planets_raise (loc : Location) (t : Time) (w w' : W) (e : exn) :
  collect_planets loc t w = (Raise e, w') ->
  exists pre x post,
    selected_planets = pre ++ x :: post /\
    Forall (fun y => answered (planets w) (body_of y, loc, t)) pre /\
    refused (planets w) (body_of x, loc, t) e /\
    same_globals w' w /\
    observed w' = observed w ++ ((fun y => (body_of y, loc, t)) <$> (pre ++ [x])).
Proof.
  unfold collect_planets. intros Hrun.
  eapply (for_each_collect_raise loc t body_of planet_entry) in Hrun; [exact Hrun |].
  intros name Hname acc w0. by apply planet_iteration.
Qed.


Lemma collect_stars_raise (loc : Location) (t : Time) (w w' : W) (e : exn) :
  collect_stars loc t w = (Raise e, w') ->
  exists pre x post,
    bright_stars (stars w) = pre ++ x :: post /\
    Forall (fun y => answered (planets w) (star_request loc t y)) pre /\
    refused (planets w) (star_request loc t x) e /\
    same_globals w' w /\
    observed w' = observed w ++ (star_request loc t <$> (pre ++ [x])).
Proof.
  unfold collect_stars, bind, get_stars. intros Hrun.
  eapply (for_each_collect_raise loc t (fun e => Star_from_dataframe e.2) star_entry)
    in Hrun; [exact Hrun |].
  intros x _ acc w0. apply star_iteration.
Qed.

End Failures.

(** ** Whole runs of [make_sky_map] and of the handler *)

Section Extras.
Context {Kernel Position : Type} `{!Externals Kernel Position}.

#[local] Abbreviation W := (World Kernel Position).
#[local] Abbreviation place lat lon := (mkLocation earth (mkTopos lat lon)).
#[local] Abbreviation instant year month day hour := (utc year month day hour 0).

Lemma planets_answered (k : Kernel) (loc : Location) (t : Time) (l : list string) :
  Forall (fun x => exists p, sight k loc t (body_of x) = Ok p) l <->
  Forall (answered k) ((fun name => (body_of name, loc, t)) <$> l).
Proof.
  rewrite Forall_fmap. apply Forall_iff. intros name. apply sight_answered.
Qed.

Lemma stars_answered (k : Kernel) (loc : Location) (t : Time) (l : DataFrame Position) :
  Forall (fun e => exists p, sight k loc t (Star_from_dataframe e.2) = Ok p) l <->
  Forall (answered k) (star_request loc t <$> l).
Proof.
  rewrite Forall_fmap. apply Forall_iff. intros e. apply sight_answered.
Qed.

Lemma bind_ret_r {A : Type} (m : M W A) (w : W) : (x <- m; ret x) w = m w.
Proof. unfold bind, ret. by destruct (m w) as [[a | e] w']. Qed.

Lemma make_sky_map_raise_run (lat lon : R) (year month day hour : Z)
    (w w' : W) (e : exn) :
  make_sky_map lat lon year month day hour w = (Raise e, w') ->
  exists sent q rest,
    planned_requests (place lat lon) (instant year month day hour) (stars w)
      = sent ++ q :: rest /\
    Forall (answered (planets w)) sent /\
    refused (planets w) q e /\
    observed w' = observed w ++ sent ++ [q] /\
    planets w' = planets w /\
    stars w' = stars w.
Proof.
  unfold make_sky_map, bind, planned_requests. intros Hrun.
  destruct (collect_planets _ _ w) as [[pd | e0] w1] eqn:Hp.
  - destruct (collect_planets_run _ _ _ _ _ Hp)
      as (n & [Hk1 Hst1] & Hobs1 & -> & _ & Hall).
    rewrite firstn_all in Hobs1.
    destruct (collect_stars _ _ w1) as [[sd | e1] w2] eqn:Hs; [done |].
    injection Hrun as <- <-.
    destruct (collect_stars_raise _ _ _ _ _ Hs)
      as (pre & x & post & Hsplit & Hpre & Hx & [Hk2 Hst2] & Hobs2).
    rewrite Hk1 in Hpre, Hx. rewrite Hst1 in Hsplit.
    eexists (_ ++ (star_request _ _ <$> pre)), (star_request _ _ x),
      (star_request _ _ <$> post).
    split; [by rewrite Hsplit, fmap_app, <- app_assoc |].
    split; [apply Forall_app; split; [by apply planets_answered | by apply Forall_fmap] |].
    split; [done |].
    split; [by rewrite Hobs2, Hobs1, fmap_app, <- !app_assoc |].
    split; congruence.
  - injection Hrun as <- <-.
    destruct (collect_planets_raise _ _ _ _ _ Hp)
      as (pre & x & post & Hsplit & Hpre & Hx & [Hk Hst] & Hobs).
    eexists (_ <$> pre), (body_of x, _, _), ((_ <$> post) ++ _).
    split; [by rewrite Hsplit, fmap_app, <- app_assoc |].
    split; [by apply Forall_fmap |]. split; [done |].
    split; [by rewrite Hobs, fmap_app |]. done.
Qed.

Lemma make_sky_map_ok_answered (lat lon : R) (year month day hour : Z) (w w' : W)
    (fig : Figure) :
  make_sky_map lat lon year month day hour w = (Ok fig, w') ->
  Forall (answered (planets w))
         (planned_requests (place lat lon) (instant year month day hour) (stars w)).
Proof.
  intros Hrun.
  destruct (make_sky_map_run _ _ _ _ _ _ _ _ _ Hrun)
    as (_ & _ & _ & _ & pd & sd & w1 & Hp & Hs & _).
  destruct (collect_planets_run _ _ _ _ _ Hp) as (_ & [Hk Hst] & _ & _ & _ & Hall1).
  destruct (collect_stars_run _ _ _ _ _ Hs) as (_ & _ & _ & _ & _ & Hall2).
  rewrite Hk, Hst in Hall2. unfold planned_requests. apply Forall_app.
  split; [by apply planets_answered | by apply stars_answered].
Qed.

Lemma make_sky_map_total (lat lon : R) (year month day hour : Z) (w : W) :
  Forall (answered (planets w))
         (planned_requests (place lat lon) (instant year month day hour) (stars w)) ->
  make_sky_map lat lon year month day hour w =
  (Ok (draw
         (omap (above_horizon (planets w) (place lat lon)
                  (instant year month day hour) body_of planet_entry)
               selected_planets)
         (omap (above_horizon (planets w) (place lat lon)
                  (instant year month day hour)
                  (fun e => Star_from_dataframe e.2) star_entry)
               (bright_stars (stars w)))),
   mkWorld (planets w) (stars w)
     (observed w
      ++ planned_requests (place lat lon) (instant year month day hour) (stars w))).
Proof.
  unfold planned_requests. intros [Hall1 Hall2]%Forall_app.
  apply planets_answered in Hall1. apply stars_answered in Hall2.
  unfold make_sky_map, bind. rewrite collect_planets_total by done.
  rewrite collect_stars_total by done. unfold ret. simpl.
  by rewrite <- app_assoc.
Qed.

Lemma make_sky_map_ok_world (lat lon : R) (year month day hour : Z) (w w' : W)
    (fig : Figure) :
  make_sky_map lat lon year month day hour w = (Ok fig, w') ->
  w' = mkWorld (planets w) (stars w)
         (observed w
          ++ planned_requests (place lat lon) (instant year month day hour) (stars w)).
Proof.
  intros Hfig. pose proof (make_sky_map_ok_answered _ _ _ _ _ _ _ _ _ Hfig) as Hall.
  rewrite (make_sky_map_total _ _ _ _ _ _ _ Hall) in Hfig. by injection Hfig as _ <-.
Qed.



Lemma sight_altitude (k : Kernel) (loc : Location) (t : Time) (obj : Target Position)
    (alt az : R) :
  sight k loc t obj = Ok (alt, az) ->
  exists a, altaz k loc t obj = Ok a /\ degrees a.1.1 = alt /\ degrees a.1.2 = az.
Proof.
  unfold sight. destruct (altaz k loc t obj) as [[[a z] d] | e]; [| done].
  intros [= <- <-]. by eexists.
Qed.

Lemma size_rendered (mag : R) :
  mag < 6 -> size mag = 12 * exp (-0.4 * (mag - 1.0)) /\ 4 / 3 < size mag.
Proof.
  intros H.
  assert (exp (Ropp 2) < exp (-0.4 * (mag - 1.0))) by (apply exp_increasing; lra).
  pose proof (exp_opp_mult 2). pose proof exp_2_upper. pose proof (exp_pos (Ropp 2)).
  unfold size. rewrite py_max_above by nra. split; [done | nra].
Qed.

Lemma bright_stars_sublist (df : DataFrame Position) : sublist (bright_stars df) df.
Proof. apply sublist_filter. Qed.

(** X3. A figure returned by [make_sky_map] has at most five traces
    more than the catalog has bright stars, hence at most five more
    than the catalog has rows. *)
Theorem trace_count_bounded (lat lon : R) (year month day hour : Z) (w w' : W)
    (fig : Figure) :
  make_sky_map lat lon year month day hour w = (Ok fig, w') ->
  (length (data fig) <= 5 + length (bright_stars (stars w)))%nat /\
  (length (bright_stars (stars w)) <= length (stars w))%nat.
Proof.
  intros Hrun.
  destruct (make_sky_map_run _ _ _ _ _ _ _ _ _ Hrun)
    as (_ & _ & _ & _ & pd & sd & w1 & Hp & Hs & ->).
  destruct (collect_planets_run _ _ _ _ _ Hp) as (_ & [Hk Hst] & _ & _ & -> & _).
  destruct (collect_stars_run _ _ _ _ _ Hs) as (_ & _ & _ & _ & -> & _).
  rewrite Hst, draw_data, length_app, !length_fmap. split.
  - pose proof (sublist_length _ _
                  (visible_planets_sublist (planets w) (place lat lon)
                     (instant year month day hour) selected_planets)) as H1.
    pose proof (sublist_length _ _
                  (visible_stars_sublist (planets w1) (place lat lon)
                     (instant year month day hour) (bright_stars (stars w)))) as H2.
    rewrite length_fmap in H1. rewrite !length_fmap in H2.
    change (length selected_planets) with 5%nat in H1. lia.
  - apply sublist_length, bright_stars_sublist.
Qed.

(** X4. In a figure returned by [make_sky_map] every marker is larger
    than 4/3: a planet marker has size 15, and a star marker belongs to
    a magnitude below 6, where the size is 12 * e^(-0.4 * (mag - 1.0))
    itself and not the floor 0.5. *)
Theorem rendered_markers_above_floor (lat lon : R) (year month day hour : Z) (w w' : W)
    (fig : Figure) :
  make_sky_map lat lon year month day hour w = (Ok fig, w') ->
  forall tr, tr ∈ data fig ->
    4 / 3 < marker_size (marker tr) /\
    (marker_size (marker tr) = 15 \/
     exists mag alt az hip,
       tr = star_trace (mag, alt, az, hip) /\ mag < 6 /\ alt > 0 /\
       marker_size (marker tr) = 12 * exp (-0.4 * (mag - 1.0))).
Proof.
  intros Hrun tr.
  destruct (make_sky_map_run _ _ _ _ _ _ _ _ _ Hrun)
    as (_ & _ & _ & _ & pd & sd & w1 & Hp & Hs & ->).
  destruct (collect_stars_run _ _ _ _ _ Hs) as (_ & _ & _ & _ & -> & _).
  rewrite draw_data. intros [Hin | Hin]%elem_of_app.
  - apply list_elem_of_fmap in Hin as ([[[mag alt] az] hip] & -> & Hin).
    apply visible_star in Hin as (row & [_ Hmag]%elem_of_bright & <- & _ & Halt).
    simpl in Hmag. destruct (size_rendered (magnitude row) Hmag) as [Heq Hgt].
    split; [exact Hgt |]. right. by exists (magnitude row), alt, az, hip.
  - apply list_elem_of_fmap in Hin as ([[name alt] az] & -> & _).
    simpl. split; [lra | by left].
Qed.

(** X5. The colour of a planet marker does not depend on the name:
    every entry of [planet_colors] and the default are "lightgray". *)
Theorem planet_colour_constant (name : string) (alt az : R) :
  marker_color (marker (planet_trace (name, alt, az))) = "lightgray".
Proof.
  simpl. unfold dict_get. destruct (planet_colors !! name) as [v |] eqn:Hv; [| done].
  apply elem_of_list_to_map_2 in Hv.
  repeat (apply elem_of_cons in Hv as [Hv | Hv]; [by injection Hv as _ -> |]).
  by apply elem_of_nil in Hv.
Qed.

(** X6. With a key of the table and a date that [fromisoformat]
    rejects, [update_map] raises that exception and sends no request. *)
Theorem update_map_bad_date (city date : string) (hour : Z) (w : W) (e : exn) :
  is_Some (locations !! city) ->
  fromisoformat date = Raise e ->
  update_map city date hour w = (Raise e, w).
Proof.
  intros [[lat lon] Hcity] Hdate. unfold update_map, dict_getitem.
  rewrite Hcity. unfold bind, ret, lift. by rewrite Hdate.
Qed.

(** X7. With a key of the table and a date that parses, [update_map]
    is [make_sky_map] at the coordinates stored for the key, on the
    parsed day, at the hour given and minute 0; what it sends is an
    initial part of the requests planned for that place and instant. *)
Theorem update_map_runs_make_sky_map (city date : string) (hour : Z) (w : W)
    (lat lon : R) (dt : DateTime) :
  locations !! city = Some (lat, lon) ->
  fromisoformat date = Ok dt ->
  update_map city date hour w =
    make_sky_map lat lon (dt_year dt) (dt_month dt) (dt_day dt) hour w /\
  exists sent,
    observed (update_map city date hour w).2 = observed w ++ sent /\
    sent `prefix_of`
      planned_requests (place lat lon)
        (instant (dt_year dt) (dt_month dt) (dt_day dt) hour) (stars w).
Proof.
  intros Hcity Hdate.
  assert (Heq : update_map city date hour w =
                make_sky_map lat lon (dt_year dt) (dt_month dt) (dt_day dt) hour w).
  { unfold update_map, dict_getitem. rewrite Hcity. unfold bind at 1, ret at 1.
    unfold bind at 1. rewrite Hdate. unfold lift, ret at 1. apply bind_ret_r. }
  split; [exact Heq |]. rewrite Heq.
  destruct (make_sky_map _ _ _ _ _ _ w) as [[fig | e] w'] eqn:Hrun.
  - rewrite (make_sky_map_ok_world _ _ _ _ _ _ _ _ _ Hrun).
    eexists. split; [reflexivity | done].
  - destruct (make_sky_map_raise_run _ _ _ _ _ _ _ _ _ Hrun)
      as (sent & q & rest & Hsplit & _ & _ & Hobs & _).
    exists (sent ++ [q]). split; [done |]. rewrite Hsplit.
    exists rest. by rewrite <- app_assoc.
Qed.

(** X8. When skyfield keeps its altitudes at or below 90 degrees,
    every radius plotted by [make_sky_map] lies in [0, 90], the fixed
    range that the layout gives the radial axis. The interval is
    closed at 90 as well: the binary64 subtraction stays within it for
    every altitude that passes [alt > 0], and reaches 90.0. *)
Theorem radii_within_axis_range (lat lon : R) (year month day hour : Z) (w w' : W)
    (fig : Figure) :
  make_sky_map lat lon year month day hour w = (Ok fig, w') ->
  (forall q a,
      q ∈ planned_requests (place lat lon) (instant year month day hour) (stars w) ->
      altaz (planets w) q.1.2 q.2 q.1.1 = Ok a -> degrees a.1.1 <= 90) ->
  (exists p, polar (layout fig) = Some p /\ radial_range (radialaxis p) = [0; 90]) /\
  (forall tr x, tr ∈ data fig -> x ∈ r tr -> 0 <= x <= 90) /\
  (forall a : float,
      Binary64.visible a = true -> (a <=? 90)%float = true ->
      (0 <=? Binary64.radius a)%float = true /\
      (Binary64.radius a <=? 90)%float = true).
Proof.
  intros Hrun Hbound.
  destruct (make_sky_map_run _ _ _ _ _ _ _ _ _ Hrun)
    as (_ & _ & _ & _ & pd & sd & w1 & Hp & Hs & ->).
  split; [by eexists |]. split; [| exact radius_range].
  destruct (collect_planets_run _ _ _ _ _ Hp) as (_ & [Hk Hst] & _ & _ & -> & _).
  destruct (collect_stars_run _ _ _ _ _ Hs) as (_ & _ & _ & _ & -> & _).
  rewrite Hk, Hst. intros tr x. rewrite draw_data.
  intros [Hin | Hin]%elem_of_app Hx.
  - apply list_elem_of_fmap in Hin as ([[[mag alt] az] hip] & -> & Hin).
    apply visible_star in Hin as (row & Hrow & _ & Hsight & Halt).
    apply sight_altitude in Hsight as (a & Ha & <- & _).
    assert (degrees a.1.1 <= 90).
    { apply (Hbound (star_request (place lat lon) (instant year month day hour)
                       (hip, row))); [| exact Ha].
      unfold planned_requests. apply elem_of_app. right.
      apply list_elem_of_fmap. by exists (hip, row). }
    simpl in Hx. apply list_elem_of_singleton in Hx as ->. lra.
  - apply list_elem_of_fmap in Hin as ([[name alt] az] & -> & Hin).
    apply visible_planet in Hin as (Hname & Hsight & Halt).
    apply sight_altitude in Hsight as (a & Ha & <- & _).
    assert (degrees a.1.1 <= 90).
    { apply (Hbound (body_of name, place lat lon, instant year month day hour));
        [| exact Ha].
      unfold planned_requests. apply elem_of_app. left.
      apply list_elem_of_fmap. by exists name. }
    simpl in Hx. apply list_elem_of_singleton in Hx as ->. lra.
Qed.

(** X9. When the index of the catalog has no duplicate, the second
    loop keeps it so: no two entries of [star_data] carry the same
    Hipparcos number. *)
Theorem rendered_stars_distinct (loc : Location) (t : Time) (w w' : W)
    (sd : list (R * R * R * Z)) :
  NoDup (fst <$> stars w) ->
  collect_stars loc t w = (Ok sd, w') ->
  NoDup ((fun s => s.2) <$> sd).
Proof.
  intros Hnodup Hs.
  destruct (collect_stars_run _ _ _ _ _ Hs) as (_ & _ & _ & _ & -> & _).
  eapply sublist_NoDup; [| apply visible_stars_sublist].
  eapply sublist_NoDup; [exact Hnodup |].
  apply fmap_sublist, bright_stars_sublist.
Qed.

Lemma locations_keys_dom : dom locations = list_to_set locations_keys.
Proof. reflexivity. Qed.

Lemma elem_of_locations_keys (city : string) :
  city ∈ locations_keys <-> is_Some (locations !! city).
Proof.
  rewrite <- elem_of_dom, locations_keys_dom. by rewrite elem_of_list_to_set.
Qed.

Lemma locations_keys_NoDup : NoDup locations_keys.
Proof. apply (bool_decide_unpack (NoDup locations_keys)). vm_compute. exact I. Qed.

(** X10. The options of the city dropdown are exactly the keys of
    [locations], each once, with the key as label and as value, and
    its initial value is one of them. So for every option listed, the
    lookup in [update_map] succeeds and the handler goes on to the
    date. (The statement is about the listed options only: the call
    at lines 173-178 does not pass [clearable], so a cleared dropdown
    can still hand [None] to the handler.) *)
Theorem city_dropdown_matches_table :
  (forall city,
      city ∈ option_value <$> dropdown_options city_dropdown <->
      is_Some (locations !! city)) /\
  NoDup (option_value <$> dropdown_options city_dropdown) /\
  Forall (fun o => option_label o = option_value o) (dropdown_options city_dropdown) /\
  dropdown_value city_dropdown ∈ option_value <$> dropdown_options city_dropdown /\
  (forall o date hour (w : W),
      o ∈ dropdown_options city_dropdown ->
      exists lat lon,
        locations !! option_value o = Some (lat, lon) /\
        update_map (option_value o) date hour w =
          (dt <- lift (fromisoformat date);
           fig <- make_sky_map lat lon (dt_year dt) (dt_month dt) (dt_day dt) hour;
           ret fig) w).
Proof.
  assert (Hvalues : option_value <$> dropdown_options city_dropdown = locations_keys)
    by reflexivity.
  rewrite Hvalues.
  split; [apply elem_of_locations_keys |].
  split; [apply locations_keys_NoDup |].
  split; [apply Forall_fmap, Forall_forall; by intros city _ |].
  split; [apply elem_of_locations_keys; by eexists |].
  intros o date hour w Ho.
  assert (Hkey : option_value o ∈ locations_keys).
  { rewrite <- Hvalues. apply list_elem_of_fmap. by exists o. }
  apply elem_of_locations_keys in Hkey as [[lat lon] Hkey].
  exists lat, lon. split; [done |].
  unfold update_map, dict_getitem. unfold bind at 1. by rewrite Hkey.
Qed.

End Extras.

(** ** The hour dropdown *)

Lemma format_02d_two_digits :
  Forall (fun h => String.length (format_02d h) = 2%nat) (seqZ 0 100).
Proof.
  apply (bool_decide_unpack
           (Forall (fun h => String.length (format_02d h) = 2%nat) (seqZ 0 100))).
  vm_compute. exact I.
Qed.

(** X11. The hour dropdown offers the 24 values 0, 1, ..., 23 in
    order, its initial value 22 among them; the labels are the five
    character strings "00:00", "01:00", ..., "23:00", all different. *)
Theorem hour_dropdown_covers_day :
  option_value <$> dropdown_options hour_dropdown = seqZ 0 24 /\
  (forall h, h ∈ option_value <$> dropdown_options hour_dropdown <-> (0 <= h < 24)%Z) /\
  dropdown_value hour_dropdown ∈ option_value <$> dropdown_options hour_dropdown /\
  Forall (fun o => option_label o = format_02d (option_value o) +:+ ":00" /\
                   String.length (option_label o) = 5%nat)
         (dropdown_options hour_dropdown) /\
  NoDup (option_label <$> dropdown_options hour_dropdown) /\
  option_label <$> dropdown_options hour_dropdown !! 0%nat = Some "00:00" /\
  option_label <$> dropdown_options hour_dropdown !! 9%nat = Some "09:00" /\
  option_label <$> dropdown_options hour_dropdown !! 23%nat = Some "23:00".
Proof.
  assert (Hvalues : option_value <$> dropdown_options hour_dropdown = seqZ 0 24)
    by reflexivity.
  rewrite Hvalues. split; [done |].
  split; [intros h; rewrite elem_of_seqZ; lia |].
  split; [apply elem_of_seqZ; simpl; lia |].
  split.
  { apply (bool_decide_unpack
             (Forall (fun o => option_label o = format_02d (option_value o) +:+ ":00" /\
                               String.length (option_label o) = 5%nat)
                     (dropdown_options hour_dropdown))).
    vm_compute. exact I. }
  split.
  { apply (bool_decide_unpack (NoDup (option_label <$> dropdown_options hour_dropdown))).
    vm_compute. exact I. }
  repeat split; reflexivity.
Qed.

(** ** The further statements at the concrete sky *)



Lemma trace_count_bounded_witness :
  (length (data (draw Demo.demo_planet_data Demo.demo_star_data))
   <= 5 + length (bright_stars (stars Demo.demo_world)))%nat /\
  (length (bright_stars (stars Demo.demo_world)) <= length (stars Demo.demo_world))%nat.
Proof.
  exact (trace_count_bounded _ _ _ _ _ _ _ _ _ demo_make_sky_map_run).
Defined.

Lemma rendered_markers_above_floor_witness :
  4 / 3 < marker_size (marker (star_trace (1.5, 50, 10, 11%Z))) /\
  (marker_size (marker (star_trace (1.5, 50, 10, 11%Z))) = 15 \/
   exists mag alt az hip,
     star_trace (1.5, 50, 10, 11%Z) = star_trace (mag, alt, az, hip) /\
     mag < 6 /\ alt > 0 /\
     marker_size (marker (star_trace (1.5, 50, 10, 11%Z)))
       = 12 * exp (-0.4 * (mag - 1.0))).
Proof.
  apply (rendered_markers_above_floor _ _ _ _ _ _ _ _ _ demo_make_sky_map_run).
  rewrite draw_data. simpl. apply list_elem_of_here.
Defined.

Lemma update_map_bad_date_witness :
  update_map "San Francisco" "21 June 2024" 22 Demo.demo_world
  = (Raise (ValueError "Invalid isoformat string"), Demo.demo_world).
Proof.
  apply update_map_bad_date; [by eexists | reflexivity].
Defined.

Lemma update_map_runs_make_sky_map_witness :
  update_map "San Francisco" "2024-06-21" 22 Demo.demo_world =
    make_sky_map 37.7749 (-122.4194) 2024 6 21 22 Demo.demo_world /\
  exists sent,
    observed (update_map "San Francisco" "2024-06-21" 22 Demo.demo_world).2
      = observed Demo.demo_world ++ sent /\
    sent `prefix_of`
      planned_requests (mkLocation earth (mkTopos 37.7749 (-122.4194)))
        (utc 2024 6 21 22 0) (stars Demo.demo_world).
Proof.
  apply (update_map_runs_make_sky_map "San Francisco" "2024-06-21" 22 Demo.demo_world
           37.7749 (-122.4194) (mkDateTime 2024 6 21)); reflexivity.
Defined.

Lemma radii_within_axis_range_witness :
  (exists p,
      polar (layout (draw Demo.demo_planet_data Demo.demo_star_data)) = Some p /\
      radial_range (radialaxis p) = [0; 90]) /\
  (forall tr x,
      tr ∈ data (draw Demo.demo_planet_data Demo.demo_star_data) ->
      x ∈ r tr -> 0 <= x <= 90) /\
  (forall a : float,
      Binary64.visible a = true -> (a <=? 90)%float = true ->
      (0 <=? Binary64.radius a)%float = true /\
      (Binary64.radius a <=? 90)%float = true).
Proof.
  apply (radii_within_axis_range _ _ _ _ _ _ _ _ _ demo_make_sky_map_run).
  intros [[obj loc] t] a _. cbn [fst snd planets altaz Demo.demo_externals].
  unfold Demo.demo_altaz.
  destruct obj as [naif_id | pos]; [destruct (naif_id =? 301)%Z | destruct (pos =? 1)%Z];
    intros [= <-]; simpl; lra.
Defined.

Lemma rendered_stars_distinct_witness :
  NoDup ((fun s : R * R * R * Z => s.2) <$> Demo.demo_star_data).
Proof.
  apply (rendered_stars_distinct Demo.san_francisco Demo.solstice Demo.after_planets
           Demo.after_stars _).
  - apply (bool_decide_unpack (NoDup (fst <$> stars Demo.after_planets))).
    vm_compute. exact I.
  - exact DemoRuns.demo_stars_run.
Defined.
